(** * tf-crnn: label preprocessing, conv-stack assembly and the CER metric

    A shallow embedding of [src/preprocessing.py] and of the decode / metric /
    model-assembly logic of [src/model.py], with the properties the
    specification states about them.

    Conventions of the embedding
    - a Python [str] is a [string], its characters are [ascii] and [len] is
      [String.length];
    - a Python [int] is a [Z], the result of [len] a [nat];
    - the [dict] [table_str2int] is a [gmap string Z];
    - an uncaught Python exception is the [Raise] branch of [result];
    - float64 arithmetic (numpy) is an interface, [Float64], so that what is
      proved about the filters holds for every implementation of the
      operations; exact rational arithmetic is the instance used to run
      examples. *)

From Stdlib Require Import ZArith QArith Qround String Ascii List Lia.
From stdpp Require Import gmap strings list fin_maps pretty.

Local Open Scope Z_scope.
Local Open Scope string_scope.
Local Open Scope list_scope.

(** ** Exceptions and the error monad *)

Inductive exn : Type :=
  | KeyError (key : string)
  | ValueError (msg : string)
  | IndexError
  | ZeroDivisionError.

Inductive result (A : Type) : Type :=
  | Ok (a : A)
  | Raise (e : exn).
Arguments Ok {A} a.
Arguments Raise {A} e.

Definition bind {A B : Type} (r : result A) (k : A → result B) : result B :=
  match r with
  | Ok a => k a
  | Raise e => Raise e
  end.

Notation "'do' x <- r ; k" := (bind r (fun x => k))
  (at level 10, x name, r at level 100, k at level 200).

(** A list comprehension whose body can raise: elements are evaluated left to
    right and the first exception aborts the comprehension. *)
Fixpoint comprehension {A B : Type} (f : A → result B) (l : list A) : result (list B) :=
  match l with
  | [] => Ok []
  | x :: l' => do y <- f x; do ys <- comprehension f l'; Ok (y :: ys)
  end.

(** ** Strings: [str.split] and [re.sub(re.escape(sep), '', s)] *)

Definition cons_head (c : ascii) (pieces : list string) : list string :=
  match pieces with
  | p :: ps => String c p :: ps
  | [] => [String c ""]
  end.

(** Both scans walk the string left to right and look for occurrences of
    [sep] that do not overlap: [skip] counts the characters of the occurrence
    found last that are still to be passed over. *)
Fixpoint split_go (sep s : string) (skip : nat) : list string :=
  match s with
  | "" => [""]
  | String c s' =>
      match skip with
      | S k => split_go sep s' k
      | O =>
          if String.prefix sep s
          then "" :: split_go sep s' (String.length sep - 1)
          else cons_head c (split_go sep s' 0)
      end
  end.

Fixpoint remove_go (sep s : string) (skip : nat) : string :=
  match s with
  | "" => ""
  | String c s' =>
      match skip with
      | S k => remove_go sep s' k
      | O =>
          if String.prefix sep s
          then remove_go sep s' (String.length sep - 1)
          else String c (remove_go sep s' 0)
      end
  end.

(** [s.split(sep)]: an empty separator is a [ValueError]. *)
Definition str_split (sep s : string) : result (list string) :=
  match sep with
  | "" => Raise (ValueError "empty separator")
  | _ => Ok (split_go sep s 0)
  end.

(** [re.sub(re.escape(sep), '', s)]: the escaped pattern matches [sep]
    literally; the empty pattern matches everywhere and replaces nothing. *)
Definition re_sub_escape (sep s : string) : string :=
  match sep with
  | "" => s
  | _ => remove_go sep s 0
  end.

(** Truthiness of a [str]: [if c]. *)
Definition truthy (c : string) : bool :=
  match c with
  | "" => false
  | _ => true
  end.

(** ** float64 as an interface *)

Class Float64 (F : Type) : Type := {
  of_int : Z → F;              (* int -> float conversion *)
  truediv : F → F → F;         (* [/] *)
  fmul : F → F → F;            (* [*] *)
  np_minimum : F → F → F;      (* [np.minimum] *)
  np_floor : F → F;            (* [np.floor] *)
  int_lt : Z → F → bool        (* [int < float] *)
}.

Definition Qlt_bool (a b : Q) : bool := negb (Qle_bool b a).

#[export] Instance exact_arith : Float64 Q := {
  of_int := inject_Z;
  truediv := Qdiv;
  fmul := Qmult;
  np_minimum := fun a b => if Qle_bool a b then a else b;
  np_floor := fun x => inject_Z (Qfloor x);
  int_lt := fun z x => Qlt_bool (inject_Z z) x
}.

(** ** Parameters ([config.Params], the fields the two modules read) *)

Record Alphabet : Type := {
  alphabet_units : list string;
  codes : list Z;
  n_classes : Z
}.

Record Params : Type := {
  alphabet : Alphabet;
  csv_delimiter : string;
  string_split_delimiter : string;
  max_chars_per_string : Z;
  input_shape : Z * Z;
  input_channels : Z;
  n_pool : Z;
  cnn_features_list : list Z;
  cnn_kernel_size : list Z;
  cnn_stride_size : list (Z * Z);
  cnn_pool_size : list (Z * Z);
  cnn_pool_strides : list (Z * Z);
  cnn_batch_norm : list bool;
  rnn_units : list Z
}.

(** ** [preprocessing.py] *)

(** [dict(pairs)]: a key seen again overwrites the earlier entry. *)
Definition dict {K V : Type} `{Countable K} (pairs : list (K * V)) : gmap K V :=
  foldl (fun m kv => <[kv.1 := kv.2]> m) ∅ pairs.

(** [dict(zip(keys, values))]: [zip] stops at the shorter list. *)
Definition dict_zip {K V : Type} `{Countable K} (keys : list K) (values : list V) : gmap K V :=
  dict (zip keys values).

(** [table_str2int[c]] *)
Definition getitem (table_str2int : gmap string Z) (c : string) : result Z :=
  match table_str2int !! c with
  | Some code => Ok code
  | None => Raise (KeyError c)
  end.

(** The character units of a label when the delimiter is not empty. *)
Definition units (split_char label : string) : list string :=
  List.filter truthy (split_go split_char label 0).

(** [''.join(pieces)] *)
Definition join (pieces : list string) : string :=
  foldr String.append "" pieces.

(** [[c for c in label.split(split_char) if c]] *)
Definition label_chars (split_char label : string) : result (list string) :=
  do pieces <- str_split split_char label;
  Ok (List.filter truthy pieces).

(** The codes of one label: split, drop the empty pieces, look each unit up. *)
Definition encode_label (table_str2int : gmap string Z) (split_char label : string)
  : result (list Z) :=
  do list_char <- label_chars split_char label;
  comprehension (getitem table_str2int) list_char.

(** [ls + np.maximum(0, (max_width - len(ls))) * [0]] *)
Definition pad_codes (max_width : Z) (ls : list Z) : list Z :=
  ls ++ replicate (Z.to_nat (Z.max 0 (max_width - Z.of_nat (length ls)))) 0.

Definition _convert_label_to_dense_codes
    (labels : list string) (split_char : string) (max_width : Z)
    (table_str2int : gmap string Z) : result (list (list Z) * list nat) :=
  do labels_chars <- comprehension (label_chars split_char) labels;
  do codes_list <- comprehension (comprehension (getitem table_str2int)) labels_chars;
  let seq_lengths := map (fun cl => length cl) codes_list in
  let dense_codes := map (pad_codes max_width) codes_list in
  Ok (dense_codes, seq_lengths).

(** A row of the input CSV. *)
Record sample : Type := {
  paths : string;
  labels : string
}.

(** What [preprocess_csv] leaves behind: the columns of [new_dataframe]
    written to [output_csv_filename], the dense codes they were formatted
    from, the diagnostic printed (if any) and the value returned. *)
Record preprocessed (F : Type) : Type := {
  out_paths : list string;
  label_dense_codes : list (list Z);
  out_label_codes : list string;
  out_label_len : list nat;
  printed : option (Z * F);
  returned : nat
}.
Arguments out_paths {F} _.
Arguments label_dense_codes {F} _.
Arguments out_label_codes {F} _.
Arguments out_label_len {F} _.
Arguments printed {F} _.
Arguments returned {F} _.

(** Python's [a / b] on two [int]s. *)
Definition int_truediv `{Float64 F} (a b : Z) : result F :=
  if (b =? 0)%Z then Raise ZeroDivisionError
  else Ok (truediv (of_int a) (of_int b)).

Section Preprocessing.
Context {F : Type} `{Float64 F}.
(** [taputapu.io.image.get_image_shape_without_loading]: the width and the
    height stored in the header of the image file at a path. *)
Variable get_image_shape_without_loading : string → positive * positive.

Definition _compute_length_inputs (path : string) (target_shape : Z * Z) : F :=
  let '(w, h) := get_image_shape_without_loading path in
  let ratio := truediv (of_int (Z.pos w)) (of_int (Z.pos h)) in
  let new_h := fst target_shape in
  let new_w := np_minimum (fmul (of_int new_h) ratio) (of_int (snd target_shape)) in
  new_w.

Definition label_string (parameters : Params) (s : sample) : string :=
  re_sub_escape (string_split_delimiter parameters) (labels s).

Definition label_len (parameters : Params) (s : sample) : nat :=
  String.length (label_string parameters s).

Definition input_length (parameters : Params) (s : sample) : F :=
  np_floor (truediv (_compute_length_inputs (paths s) (input_shape parameters))
                    (of_int (n_pool parameters))).

(** [dataframe[dataframe.label_len <= parameters.max_chars_per_string]] *)
Definition remove_long_labels (parameters : Params) (dataframe : list sample) : list sample :=
  List.filter (fun s => (Z.of_nat (label_len parameters s) <=? max_chars_per_string parameters)%Z)
              dataframe.

(** [dataframe[dataframe.label_len < dataframe.input_length]] *)
Definition remove_longer_than_input (parameters : Params) (dataframe : list sample) : list sample :=
  List.filter (fun s => int_lt (Z.of_nat (label_len parameters s)) (input_length parameters s))
              dataframe.

(** The data frame after the two filters. *)
Definition retained (parameters : Params) (dataframe : list sample) : list sample :=
  remove_longer_than_input parameters (remove_long_labels parameters dataframe).

Definition preprocess_csv (parameters : Params) (dataframe : list sample)
  : result (preprocessed F) :=
  let table_str2int :=
    dict_zip (alphabet_units (alphabet parameters)) (codes (alphabet parameters)) in
  let original_len := Z.of_nat (length dataframe) in
  let dataframe := retained parameters dataframe in
  let final_length := Z.of_nat (length dataframe) in
  let n_removed := original_len - final_length in
  do message <-
    (if (0 <? n_removed)%Z
     then do percent <- int_truediv (100 * n_removed) original_len;
          Ok (Some (n_removed, percent))
     else Ok None);
  let paths_ := map paths dataframe in
  let labels_ := map labels dataframe in
  do encoded <- _convert_label_to_dense_codes labels_
                  (string_split_delimiter parameters)
                  (max_chars_per_string parameters) table_str2int;
  let '(label_dense_codes, label_seq_length) := encoded in
  let string_label_codes :=
    map (fun list_ldc => String.concat " " (map (fun ldc : Z => pretty ldc) list_ldc))
        label_dense_codes in
  Ok {| out_paths := paths_;
        label_dense_codes := label_dense_codes;
        out_label_codes := string_label_codes;
        out_label_len := label_seq_length;
        printed := message;
        returned := length paths_ |}.

End Preprocessing.

(** ** [model.py]: assembling the convolutional stack *)

Record ConvBlock : Type := {
  features : Z;
  kernel_size : Z;
  stride : Z * Z;
  cnn_padding : string;
  pool_size : Z * Z;
  pool_strides : Z * Z;
  batchnorm : bool
}.

Inductive layer : Type :=
  | Conv (block : ConvBlock)
  | Permute (dims : Z * Z * Z)
  | Reshape                       (* target shape read off the tensor: [B, W, H*C] *)
  | BidirectionalLSTM (units : Z)
  | Dense (units : Z)
  | Softmax.

(** Python's [zip] of six lists: it stops as soon as one list is exhausted. *)
Fixpoint zip6 {A B C D E G : Type}
    (la : list A) (lb : list B) (lc : list C) (ld : list D) (le : list E) (lg : list G)
    : list (A * B * C * D * E * G) :=
  match la, lb, lc, ld, le, lg with
  | a :: la', b :: lb', c :: lc', d :: ld', e :: le', g :: lg' =>
      (a, b, c, d, e, g) :: zip6 la' lb' lc' ld' le' lg'
  | _, _, _, _, _, _ => []
  end.

(** [conv_layers], lines 90-92 of [model.py]. *)
Definition conv_layers (parameters : Params) : list ConvBlock :=
  let cnn_params :=
    zip6 (cnn_features_list parameters) (cnn_kernel_size parameters)
         (cnn_stride_size parameters) (cnn_pool_size parameters)
         (cnn_pool_strides parameters) (cnn_batch_norm parameters) in
  map (fun '(ft, ks, ss, psz, pst, bn) =>
         {| features := ft; kernel_size := ks; stride := ss; cnn_padding := "same";
            pool_size := psz; pool_strides := pst; batchnorm := bn |})
      cnn_params.

(** [get_crnn_output]: the layers applied to [input_images], in order.
    [conv_layers[0]] is an [IndexError] on an empty list. *)
Definition get_crnn_output (parameters : Params) : result (list layer) :=
  match conv_layers parameters with
  | [] => Raise IndexError
  | conv0 :: convs =>
      let rnn_layers := map BidirectionalLSTM (rnn_units parameters) in
      Ok (Conv conv0 :: map Conv convs
            ++ [Permute (2, 1, 3); Reshape]
            ++ rnn_layers
            ++ [Dense (n_classes (alphabet parameters)); Softmax])
  end.

(** ** [model.py]: decoding and the character error rate *)

(** The value of a real division in TensorFlow: dividing by zero raises
    nothing, it gives an infinity or a NaN. *)
Inductive tf_float : Type :=
  | Finite (q : Q)
  | Infinity (positive_sign : bool)
  | NaN.

(** [tf.divide] on two int64 scalars (both are cast to float64). *)
Definition tf_divide (x y : Z) : tf_float :=
  if (y =? 0)%Z then
    if (x =? 0)%Z then NaN else Infinity (0 <? x)%Z
  else Finite (inject_Z x / inject_Z y)%Q.

Definition tf_add (a b : tf_float) : tf_float :=
  match a, b with
  | NaN, _ | _, NaN => NaN
  | Finite p, Finite q => Finite (p + q)%Q
  | Infinity s, Finite _ | Finite _, Infinity s => Infinity s
  | Infinity s, Infinity t => if Bool.eqb s t then Infinity s else NaN
  end.

(** Index of the first largest entry of a row of class scores. *)
Fixpoint argmax_go (row : list Q) (i : Z) (best : Z) (best_val : Q) : Z :=
  match row with
  | [] => best
  | v :: row' =>
      if Qlt_bool best_val v then argmax_go row' (i + 1) i v
      else argmax_go row' (i + 1) best best_val
  end.

Definition argmax (row : list Q) : Z :=
  match row with
  | [] => 0
  | v :: row' => argmax_go row' 1 0 v
  end.

(** Modelled from the spec: the greedy CTC decoder behind
    [keras.backend.ctc_decode(..., greedy=True)] is library code, absent from
    the repository.  Section 4.4, step 1: at each timestep the most probable
    class is taken, consecutive repeats are collapsed and blank symbols are
    removed.  One pass over the timesteps, remembering the class of the
    previous timestep. *)
Fixpoint greedy_go (blank : Z) (prev : option Z) (classes : list Z) : list Z :=
  match classes with
  | [] => []
  | c :: rest =>
      let emitted := greedy_go blank (Some c) rest in
      let repeated := match prev with Some p => (p =? c)%Z | None => false end in
      if (c =? blank)%Z || repeated then emitted else c :: emitted
  end.

Definition greedy_decode (blank : Z) (classes : list Z) : list Z :=
  greedy_go blank None classes.

(** The blank / pad code of the specification's glossary. *)
Definition blank_code : Z := 0.

(** The two steps of the specification's wording, one after the other. *)
Fixpoint collapse_repeats (classes : list Z) : list Z :=
  match classes with
  | [] => []
  | c :: rest =>
      match rest with
      | c' :: _ => if (c =? c')%Z then collapse_repeats rest else c :: collapse_repeats rest
      | [] => [c]
      end
  end.

Definition remove_blanks (blank : Z) (classes : list Z) : list Z :=
  List.filter (fun c => negb (c =? blank)%Z) classes.

(** [ctc_decode(y_pred, input_length, greedy=True)[0][0]]: one decoded row
    per sample, from the first [input_length] timesteps, rows padded with -1
    to the longest. *)
Definition decode_sample (y : list (list Q)) (input_length : Z) : list Z :=
  greedy_decode blank_code (map argmax (take (Z.to_nat input_length) y)).

Definition pad_to (width : nat) (fill : Z) (row : list Z) : list Z :=
  row ++ replicate (width - length row) fill.

Definition ctc_decode (y_pred : list (list (list Q))) (input_length : list Z) : list (list Z) :=
  let decoded := map (fun '(y, n) => decode_sample y n) (zip y_pred input_length) in
  let width := foldr Nat.max 0%nat (map (fun row => length row) decoded) in
  map (pad_to width (-1)) decoded.

(** The row of [tf.SparseTensor(idx, tf.gather_nd(dense, idx), ...)] with
    [idx = tf.where(tf.not_equal(dense, mask))]: the entries that differ from
    [mask], in order. *)
Definition sparse_row (mask : Z) (dense_row : list Z) : list Z :=
  List.filter (fun c => negb (c =? mask)%Z) dense_row.

(** Modelled from the spec: [tf.edit_distance(..., normalize=False)] is
    library code; section 4.4, step 3 names it the Levenshtein edit distance
    between the predicted and the true sequence. *)
Fixpoint edit_distance (hyp truth : list Z) : nat :=
  match hyp with
  | [] => length truth
  | x :: hyp' =>
      (fix against (truth : list Z) : nat :=
         match truth with
         | [] => length hyp
         | y :: truth' =>
             Nat.min (Nat.min (S (edit_distance hyp' truth)) (S (against truth')))
                     ((if (x =? y)%Z then 0 else 1) + edit_distance hyp' truth')
         end) truth
  end.

(** The tensors of one training batch. *)
Record batch : Type := {
  y_pred : list (list (list Q));       (* [batch, T, n_classes] *)
  input_seq_len : list Z;
  label_codes : list (list Z);         (* [batch, max_chars_per_string] *)
  label_seq_length : list Z
}.

Definition reduce_sum (l : list Z) : Z := foldr Z.add 0 l.

(** [distance] of lines 144-161 of [model.py]. *)
Definition batch_distance (b : batch) : Z :=
  let pred_codes_dense := ctc_decode (y_pred b) (input_seq_len b) in
  let pred_codes_sparse := map (sparse_row (-1)) pred_codes_dense in
  let label_sparse := map (sparse_row 0) (label_codes b) in
  reduce_sum (map (fun '(hyp, truth) => Z.of_nat (edit_distance hyp truth))
                  (zip pred_codes_sparse label_sparse)).

(** [warp_cer_metric], the function given to [model.compile(metrics=...)]. *)
Definition warp_cer_metric (b : batch) : tf_float :=
  let distance := batch_distance b in
  let count_chars := reduce_sum (label_seq_length b) in
  tf_divide distance count_chars.

(** What Keras does with a metric given as a function: it wraps it in a mean
    over the values returned since the last reset. *)
Record mean_state : Type := { total : tf_float; count : Z }.

Definition mean_reset : mean_state := {| total := Finite 0; count := 0 |}.

Definition mean_update (fn : batch → tf_float) (st : mean_state) (b : batch) : mean_state :=
  {| total := tf_add (total st) (fn b); count := count st + 1 |}.

Definition mean_result (st : mean_state) : tf_float :=
  match total st with
  | Finite t => if (count st =? 0)%Z then Finite 0 else Finite (t / inject_Z (count st))%Q
  | other => other
  end.

(** The metric of [get_model_train] over the batches of an epoch. *)
Definition compiled_cer (batches : list batch) : tf_float :=
  mean_result (foldl (mean_update warp_cer_metric) mean_reset batches).

(** The class [CERMetric]: two weights, [distance] and [count_chars]. *)
Record CERMetric : Type := { distance : Q; count_chars : Q }.

Definition reset_states (self : CERMetric) : CERMetric :=
  {| distance := 0; count_chars := 0 |}.

(** [update_state] adds the summed edit distance of the batch to [distance]
    and its summed true lengths to [count_chars].  It reads
    [pred_sequence_length] and [true_sequence_length], names bound in
    [warp_cer_metric] only: here they come with the batch. *)
Definition update_state (self : CERMetric) (b : batch) : CERMetric :=
  {| distance := (distance self + inject_Z (batch_distance b))%Q;
     count_chars := (count_chars self + inject_Z (reduce_sum (label_seq_length b)))%Q |}.

Definition CERMetric_result (self : CERMetric) : tf_float :=
  if Qlt_bool 0 (count_chars self)
  then Finite (distance self / count_chars self)%Q
  else Finite 1.

(** ** The inverse table and the decoder of the round trip *)

(** Modelled from the spec: the codec's [decode(code) -> char] (section 4.2)
    is not in the repository; it is the inverse of the table
    [table_str2int], built from the same two lists. *)
Definition table_int2str (a : Alphabet) : gmap Z string :=
  dict_zip (codes a) (alphabet_units a).

Fixpoint decode_codes (int2str : gmap Z string) (l : list Z) : option (list string) :=
  match l with
  | [] => Some []
  | c :: l' =>
      match int2str !! c, decode_codes int2str l' with
      | Some u, Some us => Some (u :: us)
      | _, _ => None
      end
  end.

(** Decode the non-padding codes of a dense row and rejoin the units. *)
Definition decode_label (a : Alphabet) (dense : list Z) : option string :=
  match decode_codes (table_int2str a) (sparse_row 0 dense) with
  | Some us => Some (join us)
  | None => None
  end.

(** ** [preprocessing.py]: [data_preprocessing] *)

(** [os.path.join(a, b)] of [posixpath], for two components. *)
Definition str_startswith (pre s : string) : bool := String.prefix pre s.

Fixpoint str_endswith_char (c : ascii) (s : string) : bool :=
  match s with
  | "" => false
  | String c' "" => if ascii_dec c' c then true else false
  | String _ s' => str_endswith_char c s'
  end.

Definition os_path_join (a b : string) : string :=
  if str_startswith "/" b then b
  else match a with
       | "" => b
       | _ => if str_endswith_char "/" a then a ++ b else a ++ "/" ++ b
       end.

Section DataPreprocessing.
Context {F : Type} `{Float64 F}.
Variable get_image_shape_without_loading : string → positive * positive.

(** The files written so far, by name: [to_csv] creates or replaces one. *)
Definition to_csv (written : gmap string (preprocessed F)) (output_csv_filename : string)
    (new_dataframe : preprocessed F) : gmap string (preprocessed F) :=
  <[output_csv_filename := new_dataframe]> written.

(** [preprocess_csv] with its effect on the files: the output is written
    last, and only by a run that did not raise. *)
Definition preprocess_csv_file (written : gmap string (preprocessed F))
    (dataframe : list sample) (parameters : Params) (output_csv_filename : string)
  : gmap string (preprocessed F) * result nat :=
  match preprocess_csv get_image_shape_without_loading parameters dataframe with
  | Ok new_dataframe =>
      (to_csv written output_csv_filename new_dataframe, Ok (returned new_dataframe))
  | Raise e => (written, Raise e)
  end.

(** [data_preprocessing]: [output_model_dir] is the field of [Params] it
    reads besides those of [preprocess_csv]; [csv_train] and [csv_eval] are
    the contents of the files [params.csv_files_train] and
    [params.csv_files_eval]. *)
Definition data_preprocessing (written : gmap string (preprocessed F))
    (params : Params) (output_model_dir : string) (csv_train csv_eval : list sample)
  : gmap string (preprocessed F) * result (string * string * nat * nat) :=
  let output_dir := os_path_join output_model_dir "preprocessed" in
  let csv_train_output := os_path_join output_dir "updated_train.csv" in
  let csv_eval_output := os_path_join output_dir "updated_eval.csv" in
  match preprocess_csv_file written csv_train params csv_train_output with
  | (written, Raise e) => (written, Raise e)
  | (written, Ok n_samples_train) =>
      match preprocess_csv_file written csv_eval params csv_eval_output with
      | (written, Raise e) => (written, Raise e)
      | (written, Ok n_samples_eval) =>
          (written, Ok (csv_train_output, csv_eval_output, n_samples_train, n_samples_eval))
      end
  end.

End DataPreprocessing.

(** ** [model.py]: the two models *)

(** A [keras.Input]: its name and the shape of one sample. *)
Record InputSpec : Type := {
  input_name : string;
  input_dims : list Z
}.

(** What [get_model_train] and [get_model_inference] give to [Model]: the
    inputs, and the layers between [input_images] and the first output. *)
Record ModelSpec : Type := {
  model_inputs : list InputSpec;
  model_layers : list layer;
  passes_input_seq_len : bool     (* second output, [output_seq_len] *)
}.

Definition input_images_spec (parameters : Params) : InputSpec :=
  let '(h, w) := input_shape parameters in
  let c := input_channels parameters in
  {| input_name := "input_images"; input_dims := [h; w; c] |}.

Definition get_model_train (parameters : Params) : result ModelSpec :=
  let input_images := input_images_spec parameters in
  let input_seq_len := {| input_name := "input_seq_length"; input_dims := [1] |} in
  let label_codes :=
    {| input_name := "label_codes"; input_dims := [max_chars_per_string parameters] |} in
  let label_seq_length := {| input_name := "label_seq_length"; input_dims := [1] |} in
  do net_output <- get_crnn_output parameters;
  Ok {| model_inputs := [input_images; label_codes; input_seq_len; label_seq_length];
        model_layers := net_output;
        passes_input_seq_len := false |}.

Definition get_model_inference (parameters : Params) : result ModelSpec :=
  let input_images := input_images_spec parameters in
  let input_seq_len := {| input_name := "input_seq_length"; input_dims := [1] |} in
  do net_output <- get_crnn_output parameters;
  Ok {| model_inputs := [input_images; input_seq_len];
        model_layers := net_output;
        passes_input_seq_len := true |}.

(** ** [hlp/prepare_data.py]: the row written for a plate *)

(** [str.isspace] on one character, for the code points below 256. *)
Definition isspace (c : ascii) : bool :=
  let n := nat_of_ascii c in
  ((9 <=? n) && (n <=? 13))%nat || ((28 <=? n) && (n <=? 32))%nat
  || (n =? 133)%nat || (n =? 160)%nat.

Fixpoint lstrip (s : string) : string :=
  match s with
  | "" => ""
  | String c s' => if isspace c then lstrip s' else s
  end.

Fixpoint rstrip (s : string) : string :=
  match s with
  | "" => ""
  | String c s' =>
      match rstrip s' with
      | "" => if isspace c then "" else String c ""
      | kept => String c kept
      end
  end.

(** [s.strip()] *)
Definition str_strip (s : string) : string := rstrip (lstrip s).

(** [list(s)]: the characters of [s], each a string of length one. *)
Fixpoint list_of_str (s : string) : list string :=
  match s with
  | "" => []
  | String c s' => String c "" :: list_of_str s'
  end.

(** [s.replace(old, new)] for two single characters. *)
Fixpoint replace_char (old new : ascii) (s : string) : string :=
  match s with
  | "" => ""
  | String c s' =>
      String (if ascii_dec c old then new else c) (replace_char old new s')
  end.

(** [c in s] for one character. *)
Fixpoint has_char (c : ascii) (s : string) : bool :=
  match s with
  | "" => false
  | String c' s' => if ascii_dec c c' then true else has_char c s'
  end.

(** [label], line 47: ['|' + '|'.join(list(row['lp'].strip())) + '|']. *)
Definition plate_label (lp : string) : string :=
  "|" ++ String.concat "|" (list_of_str (str_strip lp)) ++ "|".

(** [src_file], lines 40 and 46; ["092"] is the backslash. *)
Definition plate_src_file (download_dir image_path : string) : string :=
  replace_char "092" "/" (os_path_join download_dir image_path).

(** One row of [gen_df], line 50. *)
Definition plate_row (download_dir image_path lp : string) : sample :=
  {| paths := plate_src_file download_dir image_path; labels := plate_label lp |}.

(** ** Inputs used in the examples *)

(** The alphabet of the specification's example, section 8. *)
Definition spec_alphabet : Alphabet :=
  {| alphabet_units := ["<pad>"; "A"; "B"; "1"]; codes := [0; 1; 2; 3]; n_classes := 4 |}.

(** An alphabet with a unit of two characters. *)
Definition digraph_alphabet : Alphabet :=
  {| alphabet_units := ["<pad>"; "ab"; "c"]; codes := [0; 1; 2]; n_classes := 3 |}.

Definition params_with (a : Alphabet) (max_chars : Z) : Params :=
  {| alphabet := a;
     csv_delimiter := ";";
     string_split_delimiter := "|";
     max_chars_per_string := max_chars;
     input_shape := (32, 100);
     input_channels := 1;
     n_pool := 4;
     cnn_features_list := [64; 128];
     cnn_kernel_size := [3; 3];
     cnn_stride_size := [(1, 1); (1, 1)];
     cnn_pool_size := [(2, 2); (2, 2)];
     cnn_pool_strides := [(2, 2); (2, 2)];
     cnn_batch_norm := [false; true];
     rnn_units := [256; 256] |}.

Definition spec_params : Params := params_with spec_alphabet 5.
Definition digraph_params : Params := params_with digraph_alphabet 5.

(** Every image is 40 pixels wide and 32 high: scaled to height 32 its width
    is 40, and with [n_pool = 4] its input length is 10. *)
Definition images_40x32 (path : string) : positive * positive := (40%positive, 32%positive).

Definition sample_AB1 : sample := {| paths := "/data/img001.jpg"; labels := "|A|B|1|" |}.
Definition sample_digraph : sample := {| paths := "/data/img002.jpg"; labels := "|ab|c|" |}.
Definition sample_unknown : sample := {| paths := "/data/img003.jpg"; labels := "|A|Z|" |}.
Definition sample_twelve : sample :=
  {| paths := "/data/img005.jpg"; labels := "|A|B|1|A|B|1|A|B|1|A|B|1|" |}.
Definition sample_no_units : sample := {| paths := "/data/img004.jpg"; labels := "|" |}.

Definition preprocessed_AB1 : preprocessed Q :=
  {| out_paths := ["/data/img001.jpg"];
     label_dense_codes := [[1; 2; 3; 0; 0]];
     out_label_codes := ["1 2 3 0 0"];
     out_label_len := [3%nat];
     printed := None;
     returned := 1 |}.

(** What is written for [sample_AB1] followed by [sample_twelve], which is
    removed. *)
Definition preprocessed_one_of_two : preprocessed Q :=
  {| out_paths := ["/data/img001.jpg"];
     label_dense_codes := [[1; 2; 3; 0; 0]];
     out_label_codes := ["1 2 3 0 0"];
     out_label_len := [3%nat];
     printed := Some (1, 100 # 2);
     returned := 1 |}.

(** The parameters of the example with the empty string as delimiter. *)
Definition empty_delimiter_params : Params :=
  {| alphabet := spec_alphabet;
     csv_delimiter := ";";
     string_split_delimiter := "";
     max_chars_per_string := 9;
     input_shape := (32, 100);
     input_channels := 1;
     n_pool := 4;
     cnn_features_list := [64; 128];
     cnn_kernel_size := [3; 3];
     cnn_stride_size := [(1, 1); (1, 1)];
     cnn_pool_size := [(2, 2); (2, 2)];
     cnn_pool_strides := [(2, 2); (2, 2)];
     cnn_batch_norm := [false; true];
     rnn_units := [256; 256] |}.

(** The parallel lists of the conv stack with one feature count too many. *)
Definition mismatched_params : Params :=
  {| alphabet := spec_alphabet;
     csv_delimiter := ";";
     string_split_delimiter := "|";
     max_chars_per_string := 5;
     input_shape := (32, 100);
     input_channels := 1;
     n_pool := 4;
     cnn_features_list := [64; 128; 256];
     cnn_kernel_size := [3; 3];
     cnn_stride_size := [(1, 1); (1, 1)];
     cnn_pool_size := [(2, 2); (2, 2)];
     cnn_pool_strides := [(2, 2); (2, 2)];
     cnn_batch_norm := [false; true];
     rnn_units := [256; 256] |}.

(** Class scores that put all the mass on one class out of four. *)
Definition one_hot (class : Z) : list Q :=
  map (fun i => if (i =? class)%Z then 1%Q else 0%Q) [0; 1; 2; 3].

(** One sample, the label of no unit: its row is padding and its length 0;
    class 1 is predicted at every timestep. *)
Definition batch_no_chars : batch :=
  {| y_pred := [map one_hot [1; 1; 1; 1]];
     input_seq_len := [4];
     label_codes := [[0; 0; 0; 0; 0]];
     label_seq_length := [0] |}.

(** One sample of one character, predicted wrongly: distance 1 over 1. *)
Definition batch_one_wrong : batch :=
  {| y_pred := [map one_hot [1; 1; 1; 1]];
     input_seq_len := [4];
     label_codes := [[2; 0; 0; 0; 0]];
     label_seq_length := [1] |}.

(** One sample of three characters, predicted rightly: distance 0 over 3. *)
Definition batch_three_right : batch :=
  {| y_pred := [map one_hot [1; 2; 2; 1]];
     input_seq_len := [4];
     label_codes := [[1; 2; 1; 0; 0]];
     label_seq_length := [3] |}.

(** One sample of two characters; the blank class gets all the mass at every
    timestep. *)
Definition batch_all_blank : batch :=
  {| y_pred := [map one_hot [0; 0; 0; 0]];
     input_seq_len := [4];
     label_codes := [[1; 2; 0; 0; 0]];
     label_seq_length := [2] |}.

(** * Properties *)

(** ** The error monad *)

Lemma bind_Ok_inv {A B : Type} (r : result A) (k : A → result B) (b : B) :
  bind r k = Ok b → ∃ a, r = Ok a ∧ k a = Ok b.
Proof. destruct r as [a|e]; simpl; [eauto | discriminate]. Qed.

Lemma comprehension_Ok_inv {A B : Type} (f : A → result B) (l : list A) (ys : list B) :
  comprehension f l = Ok ys → Forall2 (fun x y => f x = Ok y) l ys.
Proof.
  revert ys. induction l as [|x l IH]; simpl; intros ys Hc.
  - injection Hc as <-. constructor.
  - apply bind_Ok_inv in Hc as (y & Hy & Hc).
    apply bind_Ok_inv in Hc as (ys' & Hys & Hc).
    injection Hc as <-. constructor; auto.
Qed.

Lemma comprehension_Ok {A B : Type} (f : A → result B) (l : list A) (ys : list B) :
  Forall2 (fun x y => f x = Ok y) l ys → comprehension f l = Ok ys.
Proof.
  induction 1 as [|x y l ys Hxy _ IH]; simpl; [reflexivity|].
  rewrite Hxy. simpl. rewrite IH. reflexivity.
Qed.

Lemma comprehension_total {A B : Type} (f : A → result B) (g : A → B) (l : list A) :
  (∀ x, x ∈ l → f x = Ok (g x)) → comprehension f l = Ok (map g l).
Proof.
  intros Hf. apply comprehension_Ok. induction l as [|x l IH]; simpl.
  - constructor.
  - constructor.
    + apply Hf. left.
    + apply IH. intros x' Hx'. apply Hf. right. exact Hx'.
Qed.

(** The first element whose evaluation raises decides the outcome. *)
Lemma comprehension_raises {A B : Type} (f : A → result B) (l : list A) (x : A) (e : exn) :
  x ∈ l → f x = Raise e →
  ∃ x' e', x' ∈ l ∧ f x' = Raise e' ∧ comprehension f l = Raise e'.
Proof.
  induction l as [|a l IH]; intros Hin Hx.
  - inversion Hin.
  - simpl. destruct (f a) as [y|e0] eqn:Hfa.
    + assert (Hin' : x ∈ l).
      { inversion Hin; subst; [congruence | assumption]. }
      destruct (IH Hin' Hx) as (x' & e' & Hx' & Hfx' & Hc).
      exists x', e'. split; [right; exact Hx'|]. split; [exact Hfx'|].
      simpl. rewrite Hc. reflexivity.
    + exists a, e0. split; [left|]. split; [exact Hfa | reflexivity].
Qed.

(** ** Splitting and stripping *)

Lemma join_cons_head (c : ascii) (pieces : list string) :
  join (cons_head c pieces) = String c (join pieces).
Proof. destruct pieces as [|p ps]; reflexivity. Qed.

(** The pieces of [split] concatenate to the label stripped of its
    delimiters: both scans find the same occurrences. *)
Lemma join_split_go (sep s : string) (skip : nat) :
  join (split_go sep s skip) = remove_go sep s skip.
Proof.
  revert skip. induction s as [|c s IH]; intros skip; [reflexivity|].
  cbn [split_go remove_go]. destruct skip as [|k]; [|apply IH].
  destruct (String.prefix sep (String c s)).
  - cbn. apply IH.
  - rewrite join_cons_head, IH. reflexivity.
Qed.

Lemma join_filter_truthy (pieces : list string) :
  join (List.filter truthy pieces) = join pieces.
Proof.
  induction pieces as [|p ps IH]; [reflexivity|].
  simpl. destruct p as [|c p]; simpl; [exact IH|]. rewrite IH. reflexivity.
Qed.

Lemma join_units (sep label : string) :
  sep ≠ "" → join (units sep label) = re_sub_escape sep label.
Proof.
  intros Hsep. unfold units. rewrite join_filter_truthy, join_split_go.
  destruct sep; [congruence | reflexivity].
Qed.

Lemma units_truthy (sep label : string) :
  Forall (fun u => u ≠ "") (units sep label).
Proof.
  unfold units. apply List.Forall_forall. intros u Hu.
  apply List.filter_In in Hu as [_ Hu]. destruct u; [discriminate | congruence].
Qed.

Lemma label_chars_units (sep label : string) :
  sep ≠ "" → label_chars sep label = Ok (units sep label).
Proof. intros Hsep. destruct sep; [congruence | reflexivity]. Qed.

Lemma label_chars_Ok_inv (sep label : string) (us : list string) :
  label_chars sep label = Ok us → sep ≠ "" ∧ us = units sep label.
Proof.
  destruct sep as [|c sep]; [discriminate|].
  intros Heq. injection Heq as <-. split; [congruence | reflexivity].
Qed.

Lemma length_append (a b : string) :
  String.length (a ++ b) = (String.length a + String.length b)%nat.
Proof. induction a as [|c a IH]; simpl; [reflexivity | rewrite IH; reflexivity]. Qed.

Lemma length_join_ge (us : list string) :
  Forall (fun u => u ≠ "") us → (length us ≤ String.length (join us))%nat.
Proof.
  induction 1 as [|u us Hu _ IH]; simpl; [lia|].
  rewrite length_append. destruct u; [congruence | simpl; lia].
Qed.

Lemma length_join_single (us : list string) :
  Forall (fun u => String.length u = 1%nat) us → String.length (join us) = length us.
Proof.
  induction 1 as [|u us Hu _ IH]; simpl; [reflexivity|].
  rewrite length_append. lia.
Qed.

(** ** Padding *)

Lemma pad_codes_length (max_width : Z) (ls : list Z) :
  Z.of_nat (length (pad_codes max_width ls)) = Z.max (Z.of_nat (length ls)) max_width.
Proof. unfold pad_codes. rewrite length_app, length_replicate. lia. Qed.

Lemma pad_codes_prefix (max_width : Z) (ls : list Z) :
  take (length ls) (pad_codes max_width ls) = ls.
Proof. unfold pad_codes. apply take_app_length. Qed.

Lemma pad_codes_tail (max_width : Z) (ls : list Z) (j : nat) :
  (length ls ≤ j < length (pad_codes max_width ls))%nat →
  pad_codes max_width ls !! j = Some 0.
Proof.
  unfold pad_codes. rewrite length_app, length_replicate. intros [Hlo Hhi].
  rewrite lookup_app_r by exact Hlo. apply lookup_replicate_2. lia.
Qed.

(** ** Encoding one label, and a column of labels *)

Lemma getitem_Ok (table : gmap string Z) (u : string) (c : Z) :
  getitem table u = Ok c ↔ table !! u = Some c.
Proof.
  unfold getitem. destruct (table !! u); split; intros Heq;
    try discriminate; congruence.
Qed.

Lemma getitem_Raise (table : gmap string Z) (u : string) (e : exn) :
  getitem table u = Raise e → e = KeyError u ∧ table !! u = None.
Proof.
  unfold getitem. destruct (table !! u); intros Heq; [discriminate|].
  injection Heq as <-. auto.
Qed.

Lemma Forall2_compose_Ok {A B C : Type} (f : A → result B) (g : B → result C)
    (l : list A) (m : list B) (r : list C) :
  Forall2 (fun x y => f x = Ok y) l m →
  Forall2 (fun y z => g y = Ok z) m r →
  Forall2 (fun x z => bind (f x) g = Ok z) l r.
Proof.
  intros Hlm. revert r. induction Hlm as [|x y l m Hxy _ IH]; intros r Hmr.
  - inversion Hmr. constructor.
  - inversion Hmr as [|? z ? r' Hyz Hrest]; subst. constructor.
    + rewrite Hxy. exact Hyz.
    + apply IH. exact Hrest.
Qed.

(** A successful call encoded every label, padded every row and measured
    every row before padding. *)
Lemma convert_Ok_inv (labels : list string) (split_char : string) (max_width : Z)
    (table : gmap string Z) (dense : list (list Z)) (lens : list nat) :
  _convert_label_to_dense_codes labels split_char max_width table = Ok (dense, lens) →
  ∃ codes_list,
    Forall2 (fun label cl => encode_label table split_char label = Ok cl) labels codes_list
    ∧ dense = map (pad_codes max_width) codes_list
    ∧ lens = map (fun cl => length cl) codes_list.
Proof.
  unfold _convert_label_to_dense_codes. intros Hc.
  apply bind_Ok_inv in Hc as (labels_chars & Hsplit & Hc).
  apply bind_Ok_inv in Hc as (codes_list & Hcodes & Hc).
  injection Hc as <- <-. exists codes_list. split; [|split; reflexivity].
  apply comprehension_Ok_inv in Hsplit. apply comprehension_Ok_inv in Hcodes.
  unfold encode_label. eapply Forall2_compose_Ok; eassumption.
Qed.

(** Conversely, with a delimiter that is not empty and every unit in the
    table, the call succeeds. *)
Lemma convert_total (labels : list string) (split_char : string) (max_width : Z)
    (table : gmap string Z) :
  split_char ≠ "" →
  (∀ label u, label ∈ labels → u ∈ units split_char label → is_Some (table !! u)) →
  ∃ codes_list,
    _convert_label_to_dense_codes labels split_char max_width table
      = Ok (map (pad_codes max_width) codes_list, map (fun cl => length cl) codes_list)
    ∧ Forall2 (fun label cl =>
                 Forall2 (fun u c => table !! u = Some c) (units split_char label) cl)
              labels codes_list.
Proof.
  intros Hsep Hall.
  pose (code_of := fun u : string => default 0 (table !! u)).
  exists (map (fun label => map code_of (units split_char label)) labels).
  split.
  - unfold _convert_label_to_dense_codes.
    rewrite (comprehension_total (label_chars split_char) (units split_char))
      by (intros; apply label_chars_units; assumption).
    simpl.
    rewrite (comprehension_Ok (comprehension (getitem table))
               (map (units split_char) labels)
               (map (fun label => map code_of (units split_char label)) labels)).
    + reflexivity.
    + apply Forall2_fmap. apply Forall_Forall2_diag. apply List.Forall_forall.
      intros label Hlabel. apply list_elem_of_In in Hlabel. simpl.
      apply comprehension_total. intros u Hu.
      destruct (Hall label u Hlabel Hu) as [c Hc].
      unfold code_of. rewrite Hc. apply getitem_Ok. exact Hc.
  - apply Forall2_fmap_r. apply Forall_Forall2_diag. apply List.Forall_forall.
    intros label Hlabel. apply list_elem_of_In in Hlabel.
    apply Forall2_fmap_r. apply Forall_Forall2_diag. apply List.Forall_forall.
    intros u Hu. apply list_elem_of_In in Hu.
    destruct (Hall label u Hlabel Hu) as [c Hc].
    unfold code_of. simpl. rewrite Hc. reflexivity.
Qed.

(** ** [preprocess_csv] *)

Section PreprocessingFacts.
Context {F : Type} `{Float64 F}.
Variable shape_of : string → positive * positive.

Lemma retained_filter (p : Params) (df : list sample) :
  retained shape_of p df =
  List.filter (fun s =>
                 (Z.of_nat (label_len p s) <=? max_chars_per_string p)%Z
                 && int_lt (Z.of_nat (label_len p s)) (input_length shape_of p s))
              df.
Proof.
  unfold retained, remove_longer_than_input, remove_long_labels.
  induction df as [|s df IH]; [reflexivity|]. simpl.
  destruct (Z.of_nat (label_len p s) <=? max_chars_per_string p)%Z; simpl.
  - rewrite IH. reflexivity.
  - exact IH.
Qed.

Lemma retained_length (p : Params) (df : list sample) :
  (length (retained shape_of p df) ≤ length df)%nat.
Proof.
  rewrite retained_filter. induction df as [|s df IH]; simpl; [lia|].
  match goal with |- context [if ?b then _ else _] => destruct b end; simpl; lia.
Qed.

(** The diagnostic is computed without raising, and what follows does not
    read it: the outcome is that of the encoding of the retained labels. *)
Lemma preprocess_csv_encoding (p : Params) (df : list sample) :
  ∃ message : option (Z * F),
    preprocess_csv shape_of p df =
    do encoded <- _convert_label_to_dense_codes
                    (map labels (retained shape_of p df))
                    (string_split_delimiter p) (max_chars_per_string p)
                    (dict_zip (alphabet_units (alphabet p)) (codes (alphabet p)));
    Ok {| out_paths := map paths (retained shape_of p df);
          label_dense_codes := fst encoded;
          out_label_codes :=
            map (fun list_ldc =>
                   String.concat " " (map (fun ldc : Z => pretty ldc) list_ldc))
                (fst encoded);
          out_label_len := snd encoded;
          printed := message;
          returned := length (map paths (retained shape_of p df)) |}.
Proof.
  unfold preprocess_csv.
  pose proof (retained_length p df) as Hlen.
  set (n_removed := Z.of_nat (length df) - Z.of_nat (length (retained shape_of p df))).
  destruct (0 <? n_removed)%Z eqn:Hpos.
  - unfold int_truediv.
    assert (Hnz : (Z.of_nat (length df) =? 0)%Z = false).
    { apply Z.eqb_neq. apply Z.ltb_lt in Hpos. unfold n_removed in Hpos. lia. }
    rewrite Hnz. cbn [bind]. eexists.
    destruct (_convert_label_to_dense_codes _ _ _ _) as [[d l]|e]; reflexivity.
  - cbn [bind]. eexists.
    destruct (_convert_label_to_dense_codes _ _ _ _) as [[d l]|e]; reflexivity.
Qed.

(** A run that returns wrote one row per retained sample, in their order:
    its path, the padded codes of its label and the number of its units. *)
Lemma preprocess_csv_Ok_inv (p : Params) (df : list sample) (out : preprocessed F) :
  preprocess_csv shape_of p df = Ok out →
  out_paths out = map paths (retained shape_of p df)
  ∧ returned out = length (retained shape_of p df)
  ∧ ∃ codes_list,
      Forall2 (fun s cl =>
                 encode_label (dict_zip (alphabet_units (alphabet p)) (codes (alphabet p)))
                              (string_split_delimiter p) (labels s) = Ok cl)
              (retained shape_of p df) codes_list
      ∧ label_dense_codes out = map (pad_codes (max_chars_per_string p)) codes_list
      ∧ out_label_len out = map (fun cl => length cl) codes_list.
Proof.
  destruct (preprocess_csv_encoding p df) as [message ->]. intros Hrun.
  apply bind_Ok_inv in Hrun as ([d l] & Hconv & Hout).
  injection Hout as <-. simpl.
  split; [reflexivity|]. split; [apply length_map|].
  apply convert_Ok_inv in Hconv as (codes_list & Henc & -> & ->).
  exists codes_list. split; [|split; reflexivity].
  apply Forall2_fmap_l in Henc. exact Henc.
Qed.

(** The facts about one retained sample that the filters establish. *)
Lemma retained_elem (p : Params) (df : list sample) (s : sample) :
  s ∈ retained shape_of p df ↔
  s ∈ df
  ∧ (Z.of_nat (label_len p s) ≤ max_chars_per_string p)%Z
  ∧ int_lt (Z.of_nat (label_len p s)) (input_length shape_of p s) = true.
Proof.
  rewrite retained_filter, !list_elem_of_In, List.filter_In, andb_true_iff, Z.leb_le.
  tauto.
Qed.

(** Row [i] of a run that returns, next to retained sample [i]. *)
Lemma preprocess_csv_row (p : Params) (df : list sample) (out : preprocessed F)
    (i : nat) (s : sample) :
  preprocess_csv shape_of p df = Ok out →
  retained shape_of p df !! i = Some s →
  ∃ cl,
    Forall2 (fun u c => dict_zip (alphabet_units (alphabet p)) (codes (alphabet p)) !! u = Some c)
            (units (string_split_delimiter p) (labels s)) cl
    ∧ string_split_delimiter p ≠ ""
    ∧ out_paths out !! i = Some (paths s)
    ∧ label_dense_codes out !! i = Some (pad_codes (max_chars_per_string p) cl)
    ∧ out_label_len out !! i = Some (length cl).
Proof.
  intros Hrun Hi.
  apply preprocess_csv_Ok_inv in Hrun as (Hpaths & _ & codes_list & Henc & Hdense & Hlens).
  destruct (Forall2_lookup_l _ _ _ _ _ Henc Hi) as (cl & Hcl & Hs).
  exists cl. unfold encode_label in Hs.
  apply bind_Ok_inv in Hs as (us & Hus & Hcodes).
  apply label_chars_Ok_inv in Hus as [Hsep ->].
  apply comprehension_Ok_inv in Hcodes.
  split.
  { eapply Forall2_impl; [exact Hcodes|]. intros u c Huc. apply getitem_Ok. exact Huc. }
  split; [exact Hsep|].
  rewrite Hpaths, Hdense, Hlens, !list_lookup_fmap, Hi, Hcl. auto.
Qed.

End PreprocessingFacts.

(** ** The table and its inverse *)

Section Dict.
Context {K V : Type} `{Countable K}.

Lemma dict_snoc (pairs : list (K * V)) (k : K) (v : V) :
  dict (pairs ++ [(k, v)]) = <[k := v]> (dict pairs).
Proof. unfold dict. rewrite foldl_app. reflexivity. Qed.

Lemma dict_lookup_Some (pairs : list (K * V)) (k : K) (v : V) :
  dict pairs !! k = Some v → (k, v) ∈ pairs.
Proof.
  induction pairs as [|[k' v'] pairs IH] using rev_ind.
  - unfold dict. simpl. rewrite lookup_empty. discriminate.
  - rewrite dict_snoc. destruct (decide (k' = k)) as [->|Hne].
    + rewrite lookup_insert_eq. intros [= ->]. apply elem_of_app. right. left.
    + rewrite lookup_insert_ne by exact Hne. intros Hk.
      apply elem_of_app. left. apply IH. exact Hk.
Qed.

Lemma dict_lookup_NoDup (pairs : list (K * V)) (k : K) (v : V) :
  NoDup (pairs.*1) → (k, v) ∈ pairs → dict pairs !! k = Some v.
Proof.
  induction pairs as [|[k' v'] pairs IH] using rev_ind; intros Hnd Hin.
  - inversion Hin.
  - rewrite dict_snoc. rewrite fmap_app in Hnd. simpl in Hnd.
    apply NoDup_app in Hnd as (Hnd & Hfresh & _).
    apply elem_of_app in Hin as [Hin|Hin].
    + assert (Hne : k' ≠ k).
      { intros ->. apply (Hfresh k); [|left].
        apply list_elem_of_fmap. exists (k, v). auto. }
      rewrite lookup_insert_ne by exact Hne. apply IH; assumption.
    + apply list_elem_of_singleton in Hin. injection Hin as -> ->.
      apply lookup_insert_eq.
Qed.
End Dict.

Lemma elem_of_zip_swap {A B : Type} (a : A) (b : B) (la : list A) (lb : list B) :
  (a, b) ∈ zip la lb → (b, a) ∈ zip lb la.
Proof.
  revert lb. induction la as [|x la IH]; intros [|y lb] Hin; simpl in *;
    try (inversion Hin; fail).
  inversion Hin; subst; [left | right; apply IH; assumption].
Qed.

Lemma NoDup_fst_zip {A B : Type} (la : list A) (lb : list B) :
  NoDup la → NoDup ((zip la lb).*1).
Proof.
  intros Hnd. revert lb. induction Hnd as [|x la Hx Hnd IH]; intros [|y lb]; simpl;
    try constructor; [|apply IH].
  intros Hin. apply Hx. apply list_elem_of_fmap in Hin as ([x' y'] & -> & Hin).
  simpl. eapply elem_of_zip_l. exact Hin.
Qed.

(** With codes that are pairwise distinct, the inverse table sends the code
    of a unit back to the unit. *)
Lemma table_int2str_inverse (a : Alphabet) (u : string) (c : Z) :
  NoDup (codes a) →
  dict_zip (alphabet_units a) (codes a) !! u = Some c →
  table_int2str a !! c = Some u.
Proof.
  intros Hnd Hu. unfold table_int2str, dict_zip in *.
  apply dict_lookup_NoDup.
  - apply NoDup_fst_zip. exact Hnd.
  - apply elem_of_zip_swap. apply dict_lookup_Some. exact Hu.
Qed.

Lemma decode_codes_encoded (a : Alphabet) (us : list string) (cl : list Z) :
  NoDup (codes a) →
  Forall2 (fun u c => dict_zip (alphabet_units a) (codes a) !! u = Some c) us cl →
  decode_codes (table_int2str a) cl = Some us.
Proof.
  intros Hnd. induction 1 as [|u c us cl Huc _ IH]; simpl; [reflexivity|].
  rewrite (table_int2str_inverse a u c Hnd Huc), IH. reflexivity.
Qed.

Lemma sparse_row_replicate (mask : Z) (n : nat) :
  sparse_row mask (replicate n mask) = [].
Proof.
  induction n as [|n IH]; simpl; [reflexivity|].
  rewrite Z.eqb_refl. simpl. exact IH.
Qed.

Lemma sparse_row_id (mask : Z) (row : list Z) :
  Forall (fun c => c ≠ mask) row → sparse_row mask row = row.
Proof.
  induction 1 as [|c row Hc _ IH]; simpl; [reflexivity|].
  apply Z.eqb_neq in Hc. rewrite Hc. simpl. f_equal. exact IH.
Qed.

Lemma sparse_row_pad_codes (max_width : Z) (cl : list Z) :
  Forall (fun c => c ≠ 0) cl → sparse_row 0 (pad_codes max_width cl) = cl.
Proof.
  intros Hcl. unfold pad_codes, sparse_row. rewrite List.filter_app.
  fold (sparse_row 0 cl). fold (sparse_row 0 (replicate (Z.to_nat (Z.max 0 (max_width - Z.of_nat (length cl)))) 0)).
  rewrite sparse_row_replicate, sparse_row_id by exact Hcl. apply app_nil_r.
Qed.

(** * The claims about [preprocessing.py] *)

(** C1 (amended).  For every sample retained by [preprocess_csv], the true
    sequence length recorded is the number of non-empty character units of
    the label; it is at most [label_len], the character count of the
    delimiter-stripped label, and equal to it when every unit is a single
    character.  The dense code sequence emitted has exactly
    [max_chars_per_string] slots, and every position from the true length on
    holds code 0. *)
Theorem retained_row_shape {F : Type} `{Float64 F}
    (shape_of : string → positive * positive) (p : Params) (df : list sample)
    (out : preprocessed F) (i : nat) (s : sample) :
  preprocess_csv shape_of p df = Ok out →
  retained shape_of p df !! i = Some s →
  ∃ dense : list Z,
    label_dense_codes out !! i = Some dense
    ∧ out_label_len out !! i = Some (length (units (string_split_delimiter p) (labels s)))
    ∧ (length (units (string_split_delimiter p) (labels s)) ≤ label_len p s)%nat
    ∧ (Forall (fun u => String.length u = 1%nat) (units (string_split_delimiter p) (labels s)) →
       length (units (string_split_delimiter p) (labels s)) = label_len p s)
    ∧ Z.of_nat (length dense) = max_chars_per_string p
    ∧ ∀ j : nat,
        (length (units (string_split_delimiter p) (labels s)) ≤ j < length dense)%nat →
        dense !! j = Some 0.
Proof.
  intros Hrun Hi.
  destruct (preprocess_csv_row shape_of p df out i s Hrun Hi)
    as (cl & Hcl & Hsep & _ & Hdense & Hlen).
  assert (Hkept : s ∈ retained shape_of p df) by (eapply list_elem_of_lookup_2; exact Hi).
  apply retained_elem in Hkept as (_ & Hmax & _).
  pose proof (Forall2_length _ _ _ Hcl) as Hsame.
  assert (Hle : (length (units (string_split_delimiter p) (labels s)) ≤ label_len p s)%nat).
  { unfold label_len, label_string. rewrite <- (join_units _ _ Hsep).
    apply length_join_ge, units_truthy. }
  exists (pad_codes (max_chars_per_string p) cl).
  split; [exact Hdense|]. split; [rewrite Hlen, Hsame; reflexivity|].
  split; [exact Hle|]. split.
  { intros Hsingle. unfold label_len, label_string. rewrite <- (join_units _ _ Hsep).
    symmetry. apply length_join_single. exact Hsingle. }
  split.
  - rewrite pad_codes_length. lia.
  - intros j Hj. apply pad_codes_tail. lia.
Qed.

Lemma retained_row_shape_witness :
  ∃ dense : list Z,
    label_dense_codes preprocessed_AB1 !! 0%nat = Some dense
    ∧ out_label_len preprocessed_AB1 !! 0%nat = Some 3%nat
    ∧ (3 ≤ label_len spec_params sample_AB1)%nat
    ∧ (Forall (fun u => String.length u = 1%nat) ["A"; "B"; "1"] →
       3%nat = label_len spec_params sample_AB1)
    ∧ Z.of_nat (length dense) = 5
    ∧ ∀ j : nat, (3 ≤ j < length dense)%nat → dense !! j = Some 0.
Proof.
  apply (retained_row_shape images_40x32 spec_params [sample_AB1] preprocessed_AB1
           0 sample_AB1); vm_compute; reflexivity.
Defined.

(** C1, as stated, fails: with a unit of two characters the label [|ab|c|]
    has three characters and two units, and the length recorded is two. *)
Lemma true_length_is_not_label_len :
  ¬ (∀ (shape_of : string → positive * positive) (p : Params) (df : list sample)
       (out : preprocessed Q) (i : nat) (s : sample),
       preprocess_csv shape_of p df = Ok out →
       retained shape_of p df !! i = Some s →
       ∃ dense : list Z,
         label_dense_codes out !! i = Some dense
         ∧ out_label_len out !! i = Some (label_len p s)
         ∧ Z.of_nat (length dense) = max_chars_per_string p
         ∧ ∀ j : nat, (label_len p s ≤ j < length dense)%nat → dense !! j = Some 0).
Proof.
  intros Hclaim.
  destruct (Hclaim images_40x32 digraph_params [sample_digraph]
              {| out_paths := ["/data/img002.jpg"];
                 label_dense_codes := [[1; 2; 0; 0; 0]];
                 out_label_codes := ["1 2 0 0 0"];
                 out_label_len := [2%nat];
                 printed := None;
                 returned := 1 |}
              0%nat sample_digraph)
    as (dense & _ & Hlen & _).
  - vm_compute. reflexivity.
  - vm_compute. reflexivity.
  - vm_compute in Hlen. discriminate Hlen.
Qed.

(** In exact arithmetic, [label_len < floor x] is the comparison of integers. *)
Lemma exact_int_lt_floor (z : Z) (x : Q) :
  int_lt z (np_floor x) = true ↔ (z < Qfloor x)%Z.
Proof.
  simpl. unfold Qlt_bool. rewrite negb_true_iff.
  destruct (Qle_bool (inject_Z (Qfloor x)) (inject_Z z)) eqn:Hle.
  - apply Qle_bool_iff in Hle. rewrite <- Zle_Qle in Hle. split; [discriminate | lia].
  - split; [intros _ | reflexivity].
    destruct (Z_lt_le_dec z (Qfloor x)) as [Hlt|Hge]; [exact Hlt|].
    rewrite Zle_Qle in Hge. apply Qle_bool_iff in Hge. congruence.
Qed.

(** The example of section 8: a scaled width of 40 and [n_pool = 4] give an
    input length of 10; a label of 3 characters is kept, one of 12 is not. *)
Example input_length_40_over_4 :
  (input_length images_40x32 spec_params sample_AB1 == 10)%Q
  ∧ int_lt 3 (input_length images_40x32 spec_params sample_AB1) = true
  ∧ int_lt 12 (input_length images_40x32 spec_params sample_AB1) = false.
Proof. vm_compute. repeat split; reflexivity. Qed.

(** C2.  A run of [preprocess_csv] that returns wrote the rows of exactly the
    samples with [label_len <= max_chars_per_string] and
    [label_len < input_length], in their order, where
    [input_length = floor (min (target_height * (width / height), target_width) / n_pool)]
    from the width and height of the image; no other sample is in the
    output. *)
Theorem retention_criterion {F : Type} `{Float64 F}
    (shape_of : string → positive * positive) (p : Params) (df : list sample)
    (out : preprocessed F) :
  preprocess_csv shape_of p df = Ok out →
  out_paths out = map paths (retained shape_of p df)
  ∧ returned out = length (retained shape_of p df)
  ∧ retained shape_of p df =
      List.filter (fun s =>
                     (Z.of_nat (label_len p s) <=? max_chars_per_string p)%Z
                     && int_lt (Z.of_nat (label_len p s)) (input_length shape_of p s))
                  df
  ∧ (∀ s : sample,
       s ∈ retained shape_of p df ↔
       s ∈ df
       ∧ (Z.of_nat (label_len p s) ≤ max_chars_per_string p)%Z
       ∧ int_lt (Z.of_nat (label_len p s)) (input_length shape_of p s) = true)
  ∧ (∀ s : sample,
       input_length shape_of p s =
       np_floor
         (truediv
            (np_minimum
               (fmul (of_int (fst (input_shape p)))
                     (truediv (of_int (Z.pos (fst (shape_of (paths s)))))
                              (of_int (Z.pos (snd (shape_of (paths s)))))))
               (of_int (snd (input_shape p))))
            (of_int (n_pool p)))).
Proof.
  intros Hrun. apply preprocess_csv_Ok_inv in Hrun as (Hpaths & Hret & _).
  split; [exact Hpaths|]. split; [exact Hret|].
  split; [apply retained_filter|]. split; [intros s; apply retained_elem|].
  intros s. unfold input_length, _compute_length_inputs.
  destruct (shape_of (paths s)) as [w h]. reflexivity.
Qed.

Lemma retention_criterion_witness :
  preprocess_csv images_40x32 spec_params [sample_AB1; sample_twelve]
    = Ok {| out_paths := ["/data/img001.jpg"];
            label_dense_codes := [[1; 2; 3; 0; 0]];
            out_label_codes := ["1 2 3 0 0"];
            out_label_len := [3%nat];
            printed := Some (1, 100 # 2);
            returned := 1 |}
  ∧ retained (F:=Q) images_40x32 spec_params [sample_AB1; sample_twelve] = [sample_AB1].
Proof.
  assert (Hrun : preprocess_csv images_40x32 spec_params [sample_AB1; sample_twelve]
                 = Ok {| out_paths := ["/data/img001.jpg"];
                         label_dense_codes := [[1; 2; 3; 0; 0]];
                         out_label_codes := ["1 2 3 0 0"];
                         out_label_len := [3%nat];
                         printed := Some (1, 100 # 2);
                         returned := 1 |})
    by (vm_compute; reflexivity).
  split; [exact Hrun|].
  destruct (retention_criterion images_40x32 spec_params [sample_AB1; sample_twelve] _ Hrun)
    as (_ & _ & Hfilter & _).
  rewrite Hfilter. vm_compute. reflexivity.
Defined.

(** C3.  For a sample retained by a run that returns, decoding the
    non-padding codes of its row through the inverse of the table and
    rejoining the units gives back the delimiter-stripped label, provided the
    codes of the alphabet are pairwise distinct and code 0 is kept for
    padding: no unit of the label has it. *)
Theorem round_trip {F : Type} `{Float64 F}
    (shape_of : string → positive * positive) (p : Params) (df : list sample)
    (out : preprocessed F) (i : nat) (s : sample) (dense : list Z) :
  preprocess_csv shape_of p df = Ok out →
  retained shape_of p df !! i = Some s →
  label_dense_codes out !! i = Some dense →
  NoDup (codes (alphabet p)) →
  Forall (fun u => dict_zip (alphabet_units (alphabet p)) (codes (alphabet p)) !! u ≠ Some 0)
         (units (string_split_delimiter p) (labels s)) →
  decode_label (alphabet p) dense = Some (label_string p s).
Proof.
  intros Hrun Hi Hdense Hnd Hpad.
  destruct (preprocess_csv_row shape_of p df out i s Hrun Hi)
    as (cl & Hcl & Hsep & _ & Hdense' & _).
  rewrite Hdense in Hdense'. injection Hdense' as ->.
  assert (Hnz : Forall (fun c => c ≠ 0) cl).
  { clear - Hcl Hpad. induction Hcl as [|u c us cl Huc _ IH]; [constructor|].
    inversion Hpad as [|? ? Hu Hus]; subst. constructor; [|apply IH; exact Hus].
    intros ->. apply Hu. exact Huc. }
  unfold decode_label. rewrite (sparse_row_pad_codes _ _ Hnz).
  rewrite (decode_codes_encoded _ _ _ Hnd Hcl).
  unfold label_string. rewrite (join_units _ _ Hsep). reflexivity.
Qed.

Lemma round_trip_witness :
  decode_label spec_alphabet [1; 2; 3; 0; 0] = Some "AB1".
Proof.
  apply (round_trip images_40x32 spec_params [sample_AB1] preprocessed_AB1 0 sample_AB1).
  - vm_compute. reflexivity.
  - vm_compute. reflexivity.
  - vm_compute. reflexivity.
  - apply (bool_decide_unpack _). vm_compute. exact I.
  - apply (bool_decide_unpack _). vm_compute. exact I.
Defined.

Lemma comprehension_getitem_Raise (table : gmap string Z) (us : list string) (e : exn) :
  comprehension (getitem table) us = Raise e →
  ∃ u, e = KeyError u ∧ u ∈ us ∧ table !! u = None.
Proof.
  induction us as [|u us IH]; simpl; [discriminate|].
  destruct (getitem table u) as [c|e0] eqn:Hu; simpl.
  - destruct (comprehension (getitem table) us) as [cs|e1]; simpl; [discriminate|].
    intros [= ->]. destruct (IH eq_refl) as (u' & -> & Hin & Hnone).
    exists u'. split; [reflexivity|]. split; [right; exact Hin | exact Hnone].
  - intros [= ->]. apply getitem_Raise in Hu as [-> Hnone].
    exists u. split; [reflexivity|]. split; [left | exact Hnone].
Qed.

(** C4.  If the label of a retained sample has, among the units its split
    gives, one that is not in the table, [preprocess_csv] raises a [KeyError]
    that names a missing unit: the run is aborted before anything is
    written, no row is dropped and no shorter output is produced. *)
Theorem unknown_unit_aborts {F : Type} `{Float64 F}
    (shape_of : string → positive * positive) (p : Params) (df : list sample)
    (s : sample) (u : string) :
  s ∈ retained shape_of p df →
  (∃ list_char : list string,
     label_chars (string_split_delimiter p) (labels s) = Ok list_char ∧ u ∈ list_char) →
  dict_zip (alphabet_units (alphabet p)) (codes (alphabet p)) !! u = None →
  ∃ u' : string,
    preprocess_csv shape_of p df = Raise (KeyError u')
    ∧ dict_zip (alphabet_units (alphabet p)) (codes (alphabet p)) !! u' = None.
Proof.
  intros Hs (list_char & Hchars & Hu) Hnone.
  apply label_chars_Ok_inv in Hchars as [Hsep ->].
  destruct (preprocess_csv_encoding shape_of p df) as [message ->].
  set (table := dict_zip (alphabet_units (alphabet p)) (codes (alphabet p))) in *.
  set (sep := string_split_delimiter p) in *.
  assert (Hconv : ∃ u', _convert_label_to_dense_codes
                          (map labels (retained shape_of p df)) sep
                          (max_chars_per_string p) table = Raise (KeyError u')
                        ∧ table !! u' = None).
  { unfold _convert_label_to_dense_codes.
    rewrite (comprehension_total (label_chars sep) (units sep))
      by (intros; apply label_chars_units; exact Hsep).
    cbn [bind].
    assert (Hinner : getitem table u = Raise (KeyError u)).
    { unfold getitem. rewrite Hnone. reflexivity. }
    destruct (comprehension_raises (getitem table) _ u _ Hu Hinner)
      as (u1 & e1 & _ & _ & Hrow).
    assert (Hrow_in : units sep (labels s) ∈ map (units sep) (map labels (retained shape_of p df))).
    { apply list_elem_of_fmap. exists (labels s). split; [reflexivity|].
      apply list_elem_of_fmap. exists s. auto. }
    destruct (comprehension_raises (comprehension (getitem table)) _ _ _ Hrow_in Hrow)
      as (us' & e' & _ & Hus' & Hall).
    apply comprehension_getitem_Raise in Hus' as (u' & -> & _ & Hnone').
    exists u'. rewrite Hall. split; [reflexivity | exact Hnone']. }
  destruct Hconv as (u' & Hconv & Hnone').
  exists u'. rewrite Hconv. split; [reflexivity | exact Hnone'].
Qed.

Lemma unknown_unit_aborts_witness :
  ∃ u' : string,
    preprocess_csv (F:=Q) images_40x32 spec_params [sample_AB1; sample_unknown]
      = Raise (KeyError u')
    ∧ dict_zip (alphabet_units spec_alphabet) (codes spec_alphabet) !! u' = None.
Proof.
  apply (unknown_unit_aborts images_40x32 spec_params [sample_AB1; sample_unknown]
           sample_unknown "Z").
  - vm_compute. right. left.
  - exists ["A"; "Z"]. split; [vm_compute; reflexivity | right; left].
  - vm_compute. reflexivity.
Defined.


(** The sample with no unit at all is retained, with true length 0 and a row
    of padding only; the diagnostic of a run that filtered everything shows
    100 percent and the run still returns. *)
Example no_unit_sample_is_retained :
  preprocess_csv images_40x32 spec_params [sample_no_units]
    = Ok {| out_paths := ["/data/img004.jpg"];
            label_dense_codes := [[0; 0; 0; 0; 0]];
            out_label_codes := ["0 0 0 0 0"];
            out_label_len := [0%nat];
            printed := None;
            returned := 1 |}.
Proof. vm_compute. reflexivity. Qed.

Example all_filtered_is_not_an_error :
  preprocess_csv images_40x32 spec_params [sample_twelve]
    = Ok {| out_paths := [];
            label_dense_codes := [];
            out_label_codes := [];
            out_label_len := [];
            printed := Some (1, 100 # 1);
            returned := 0 |}.
Proof. vm_compute. reflexivity. Qed.

(** C10.  With a delimiter that is not empty and every unit in the table,
    [_convert_label_to_dense_codes] returns, for each label, the codes of its
    non-empty units followed by exactly [max 0 (max_width - L)] zeros, [L]
    the number of units: the row has [max L max_width] slots and starts with
    the [L] codes, so that a label with more than [max_width] units gives a
    row of [L] slots, longer than [max_width], and neither a truncated row
    nor a failure.  The empty pieces of the split are not looked up. *)
Theorem dense_codes_never_truncate
    (labels : list string) (split_char : string) (max_width : Z) (table : gmap string Z) :
  split_char ≠ "" →
  Forall (fun label => Forall (fun u => is_Some (table !! u)) (units split_char label)) labels →
  ∃ codes_list : list (list Z),
    _convert_label_to_dense_codes labels split_char max_width table
      = Ok (map (pad_codes max_width) codes_list, map (fun cl => length cl) codes_list)
    ∧ Forall2
        (fun label cl =>
           let L := length (units split_char label) in
           Forall2 (fun u c => table !! u = Some c) (units split_char label) cl
           ∧ units split_char label = List.filter truthy (split_go split_char label 0)
           ∧ Forall (fun u => u ≠ "") (units split_char label)
           ∧ pad_codes max_width cl
               = cl ++ replicate (Z.to_nat (Z.max 0 (max_width - Z.of_nat L))) 0
           ∧ Z.of_nat (length (pad_codes max_width cl)) = Z.max (Z.of_nat L) max_width
           ∧ take L (pad_codes max_width cl) = cl
           ∧ ((max_width < Z.of_nat L)%Z → pad_codes max_width cl = cl))
        labels codes_list.
Proof.
  intros Hsep Hall.
  destruct (convert_total labels split_char max_width table Hsep) as (codes_list & Hrun & Hcodes).
  { intros label u Hlabel Hu.
    rewrite List.Forall_forall in Hall. apply list_elem_of_In in Hlabel.
    specialize (Hall label Hlabel). rewrite List.Forall_forall in Hall.
    apply Hall. apply list_elem_of_In. exact Hu. }
  exists codes_list. split; [exact Hrun|].
  eapply Forall2_impl; [exact Hcodes|]. intros label cl Hcl. cbv zeta.
  pose proof (Forall2_length _ _ _ Hcl) as Hsame.
  split; [exact Hcl|]. split; [reflexivity|]. split; [apply units_truthy|].
  rewrite Hsame. split; [reflexivity|]. split; [apply pad_codes_length|].
  split; [apply pad_codes_prefix|].
  intros Hlong. unfold pad_codes.
  replace (Z.to_nat (Z.max 0 (max_width - Z.of_nat (length cl)))) with 0%nat by lia.
  apply app_nil_r.
Qed.

Lemma dense_codes_never_truncate_witness :
  ∃ codes_list : list (list Z),
    _convert_label_to_dense_codes ["|A|B|1|"; "||A"] "|" 2
      (dict_zip (alphabet_units spec_alphabet) (codes spec_alphabet))
      = Ok (map (pad_codes 2) codes_list, map (fun cl => length cl) codes_list).
Proof.
  destruct (dense_codes_never_truncate ["|A|B|1|"; "||A"] "|" 2
              (dict_zip (alphabet_units spec_alphabet) (codes spec_alphabet)))
    as (codes_list & Hrun & _).
  - discriminate.
  - apply (bool_decide_unpack _). vm_compute. exact I.
  - exists codes_list. exact Hrun.
Defined.

(** Three units in a row of width two: the row keeps its three codes. *)
Example three_units_width_two :
  _convert_label_to_dense_codes ["|A|B|1|"; "||A"] "|" 2
    (dict_zip (alphabet_units spec_alphabet) (codes spec_alphabet))
  = Ok ([[1; 2; 3]; [1; 0]], [3%nat; 1%nat]).
Proof. vm_compute. reflexivity. Qed.

(** * The claims about [model.py] *)

(** ** Greedy decoding *)

Lemma remove_blanks_collapse_cons (blank prev : Z) (classes : list Z) :
  remove_blanks blank (collapse_repeats (prev :: classes))
  = (if (prev =? blank)%Z then [] else [prev]) ++ greedy_go blank (Some prev) classes.
Proof.
  revert prev. induction classes as [|c rest IH]; intros prev.
  - simpl. destruct (prev =? blank)%Z; reflexivity.
  - change (collapse_repeats (prev :: c :: rest))
      with (if (prev =? c)%Z then collapse_repeats (c :: rest)
            else prev :: collapse_repeats (c :: rest)).
    cbn [greedy_go]. destruct (prev =? c)%Z eqn:Hpc.
    + apply Z.eqb_eq in Hpc. subst c. rewrite IH, orb_true_r. reflexivity.
    + rewrite orb_false_r. unfold remove_blanks in *. cbn [List.filter].
      rewrite IH. destruct (prev =? blank)%Z, (c =? blank)%Z; reflexivity.
Qed.

(** C5.  Greedy decoding of a sequence of per-timestep classes is the
    sequence with its consecutive repeats collapsed and its blanks removed,
    and no blank is left in it; with blank code 0 the sequence
    [1,1,0,2,2,3,0,0] decodes to [1,2,3]. *)
Theorem greedy_decode_collapses_and_removes_blanks :
  (∀ (blank : Z) (classes : list Z),
     greedy_decode blank classes = remove_blanks blank (collapse_repeats classes))
  ∧ (∀ (blank : Z) (classes : list Z), blank ∉ greedy_decode blank classes)
  ∧ greedy_decode blank_code [1; 1; 0; 2; 2; 3; 0; 0] = [1; 2; 3].
Proof.
  assert (Heq : ∀ blank classes,
             greedy_decode blank classes = remove_blanks blank (collapse_repeats classes)).
  { intros blank [|c rest]; [reflexivity|].
    rewrite remove_blanks_collapse_cons. unfold greedy_decode. cbn [greedy_go].
    rewrite orb_false_r. destruct (c =? blank)%Z; reflexivity. }
  split; [exact Heq|]. split; [|reflexivity].
  intros blank classes. rewrite Heq. unfold remove_blanks.
  rewrite list_elem_of_In, List.filter_In, Z.eqb_refl. intros [_ Hfalse]. discriminate.
Qed.

(** ** The conv stack *)

Lemma zip6_length {A B C D E G : Type}
    (la : list A) (lb : list B) (lc : list C) (ld : list D) (le : list E) (lg : list G) :
  length (zip6 la lb lc ld le lg)
  = Nat.min (length la) (Nat.min (length lb) (Nat.min (length lc)
      (Nat.min (length ld) (Nat.min (length le) (length lg))))).
Proof.
  revert lb lc ld le lg.
  induction la as [|a la IH]; intros [|b lb] [|c lc] [|d ld] [|e le] [|g lg];
    simpl; try reflexivity; try lia.
  rewrite IH. reflexivity.
Qed.

Lemma zip6_lookup {A B C D E G : Type}
    (la : list A) (lb : list B) (lc : list C) (ld : list D) (le : list E) (lg : list G)
    (i : nat) (a : A) (b : B) (c : C) (d : D) (e : E) (g : G) :
  zip6 la lb lc ld le lg !! i = Some (a, b, c, d, e, g) →
  la !! i = Some a ∧ lb !! i = Some b ∧ lc !! i = Some c
  ∧ ld !! i = Some d ∧ le !! i = Some e ∧ lg !! i = Some g.
Proof.
  revert lb lc ld le lg i.
  induction la as [|a0 la IH]; intros [|b0 lb] [|c0 lc] [|d0 ld] [|e0 le] [|g0 lg] i;
    simpl; try discriminate.
  destruct i as [|i]; simpl.
  - intros [= -> -> -> -> -> ->]. repeat split; reflexivity.
  - apply IH.
Qed.

(** C8 (amended).  [get_crnn_output] does not compare the lengths of the
    parallel lists: it zips them.  It builds as many conv blocks as the
    shortest of the six lists has entries, block [i] from position [i] of
    each list with padding mode "same", and it raises (an [IndexError], on
    [conv_layers[0]]) exactly when one of the lists is empty. *)
Theorem conv_stack_follows_shortest_list (p : Params) :
  length (conv_layers p)
  = Nat.min (length (cnn_features_list p)) (Nat.min (length (cnn_kernel_size p))
      (Nat.min (length (cnn_stride_size p)) (Nat.min (length (cnn_pool_size p))
        (Nat.min (length (cnn_pool_strides p)) (length (cnn_batch_norm p))))))
  ∧ (∀ (i : nat) (blk : ConvBlock),
       conv_layers p !! i = Some blk →
       cnn_features_list p !! i = Some (features blk)
       ∧ cnn_kernel_size p !! i = Some (kernel_size blk)
       ∧ cnn_stride_size p !! i = Some (stride blk)
       ∧ cnn_pool_size p !! i = Some (pool_size blk)
       ∧ cnn_pool_strides p !! i = Some (pool_strides blk)
       ∧ cnn_batch_norm p !! i = Some (batchnorm blk)
       ∧ cnn_padding blk = "same")
  ∧ (length (conv_layers p) = 0%nat ↔ get_crnn_output p = Raise IndexError)
  ∧ (length (conv_layers p) ≠ 0%nat ↔
     get_crnn_output p
     = Ok (map Conv (conv_layers p)
             ++ [Permute (2, 1, 3); Reshape]
             ++ map BidirectionalLSTM (rnn_units p)
             ++ [Dense (n_classes (alphabet p)); Softmax])).
Proof.
  split; [unfold conv_layers; rewrite length_map; apply zip6_length|].
  split.
  { intros i blk. unfold conv_layers. rewrite list_lookup_fmap.
    destruct (zip6 _ _ _ _ _ _ !! i) as [[[[[[ft ks] ss] psz] pst] bn]|] eqn:Hz;
      simpl; [|discriminate].
    intros [= <-]. simpl. apply zip6_lookup in Hz. tauto. }
  unfold get_crnn_output. destruct (conv_layers p) as [|conv0 convs]; simpl.
  - split; split; intros Hx; try reflexivity; try discriminate; congruence.
  - split; split; intros Hx; try reflexivity; try discriminate; congruence.
Qed.

Lemma conv_stack_follows_shortest_list_witness :
  length (conv_layers mismatched_params) = 2%nat
  ∧ ∃ layers, get_crnn_output mismatched_params = Ok layers.
Proof.
  destruct (conv_stack_follows_shortest_list mismatched_params) as (Hlen & _ & _ & Hbuilt).
  split; [rewrite Hlen; reflexivity|].
  eexists. apply Hbuilt. rewrite Hlen. vm_compute. discriminate.
Defined.

(** C8, as stated, fails: with three feature counts and two entries in each
    of the other lists, a model of two conv blocks is built. *)
Lemma mismatched_lists_build_a_model :
  ¬ (∀ p : Params,
       ¬ (length (cnn_features_list p) = length (cnn_kernel_size p)
          ∧ length (cnn_kernel_size p) = length (cnn_stride_size p)
          ∧ length (cnn_stride_size p) = length (cnn_pool_size p)
          ∧ length (cnn_pool_size p) = length (cnn_pool_strides p)
          ∧ length (cnn_pool_strides p) = length (cnn_batch_norm p)) →
       ∃ e : exn, get_crnn_output p = Raise e).
Proof.
  intros Hclaim. destruct (Hclaim mismatched_params) as [e He].
  - simpl. intros [Hlen _]. discriminate Hlen.
  - vm_compute in He. discriminate He.
Qed.

(** ** The character error rate *)

(** The guard of [CERMetric.result]: without characters the result is 1. *)
Lemma CERMetric_result_without_characters (self : CERMetric) :
  (count_chars self <= 0)%Q → CERMetric_result self = Finite 1.
Proof.
  intros Hle. unfold CERMetric_result, Qlt_bool.
  apply Qle_bool_iff in Hle. rewrite Hle. reflexivity.
Qed.

Lemma CERMetric_result_ratio (self : CERMetric) :
  (0 < count_chars self)%Q →
  CERMetric_result self = Finite (distance self / count_chars self).
Proof.
  intros Hlt. unfold CERMetric_result, Qlt_bool.
  destruct (Qle_bool (count_chars self) 0) eqn:Hle; [|reflexivity].
  apply Qle_bool_iff in Hle. exfalso. apply (Qlt_not_le _ _ Hlt Hle).
Qed.

(** [warp_cer_metric] has no such guard: without characters it divides by
    zero, and the quotient is not a number of any kind, 1 included. *)
Lemma warp_cer_metric_without_characters (b : batch) (q : Q) :
  reduce_sum (label_seq_length b) = 0 → warp_cer_metric b ≠ Finite q.
Proof.
  intros Hzero. unfold warp_cer_metric, tf_divide. rewrite Hzero. simpl.
  destruct (batch_distance b =? 0)%Z; discriminate.
Qed.

(** The two weights of [CERMetric] are running sums over the batches seen
    since the last reset. *)
Lemma CERMetric_running_sums (self : CERMetric) (batches : list batch) :
  (distance (foldl update_state self batches)
   == distance self + inject_Z (reduce_sum (map batch_distance batches)))%Q
  ∧ (count_chars (foldl update_state self batches)
     == count_chars self
        + inject_Z (reduce_sum (map (fun b => reduce_sum (label_seq_length b)) batches)))%Q.
Proof.
  revert self. induction batches as [|b batches IH]; intros self; simpl.
  - split; ring.
  - destruct (IH (update_state self b)) as [Hd Hc]. rewrite Hd, Hc. simpl.
    rewrite !inject_Z_plus. split; ring.
Qed.

(** C6.  The batch made of the label without units has no true character.
    On it [warp_cer_metric], the metric given to [model.compile], is 1 / 0,
    an infinity, and so is the value Keras reports for the epoch; the guarded
    [CERMetric.result] is 1 on the same batch. *)
Theorem cer_of_a_batch_without_characters :
  reduce_sum (label_seq_length batch_no_chars) = 0
  ∧ warp_cer_metric batch_no_chars = Infinity true
  ∧ compiled_cer [batch_no_chars] = Infinity true
  ∧ CERMetric_result
      (update_state (reset_states {| distance := 0; count_chars := 0 |}) batch_no_chars)
    = Finite 1.
Proof. vm_compute. repeat split; reflexivity. Qed.

(** C7.  Over a batch with distance 1 on 1 character and a batch with
    distance 0 on 3 characters, [warp_cer_metric] gives the ratio of each
    batch, 1 and 0, whatever came before; the metric of [get_model_train] is
    their mean, 1/2; the ratio of the running totals, which [CERMetric]
    computes, is 1/4. *)
Theorem compiled_cer_is_a_mean_of_ratios :
  ∃ q1 q2 q r : Q,
    warp_cer_metric batch_one_wrong = Finite q1
    ∧ (q1 == 1)%Q
    ∧ warp_cer_metric batch_three_right = Finite q2
    ∧ (q2 == 0)%Q
    ∧ compiled_cer [batch_one_wrong; batch_three_right] = Finite q
    ∧ (q == 1 # 2)%Q
    ∧ CERMetric_result
        (foldl update_state (reset_states {| distance := 0; count_chars := 0 |})
               [batch_one_wrong; batch_three_right])
      = Finite r
    ∧ (r == 1 # 4)%Q.
Proof.
  do 4 eexists.
  split; [vm_compute; reflexivity|]. split; [reflexivity|].
  split; [vm_compute; reflexivity|]. split; [reflexivity|].
  split; [vm_compute; reflexivity|]. split; [reflexivity|].
  split; [vm_compute; reflexivity|]. reflexivity.
Qed.

(** * Further properties of [preprocessing.py] *)

Lemma length_join (us : list string) :
  String.length (join us) = sum_list (map String.length us).
Proof.
  induction us as [|u us IH]; simpl; [reflexivity|].
  rewrite length_append, IH. reflexivity.
Qed.

(** X1.  With a delimiter that is not empty, the pieces that [split] keeps
    concatenate to the label stripped of its delimiters, so that [label_len],
    which the filters compare, is the total number of characters of the
    units that are encoded. *)
Theorem label_len_is_total_unit_length (p : Params) (s : sample) :
  string_split_delimiter p ≠ "" →
  join (units (string_split_delimiter p) (labels s)) = label_string p s
  ∧ label_len p s
    = sum_list (map String.length (units (string_split_delimiter p) (labels s))).
Proof.
  intros Hsep. pose proof (join_units _ (labels s) Hsep) as Hjoin.
  split; [exact Hjoin|].
  unfold label_len, label_string. rewrite <- Hjoin. apply length_join.
Qed.

Lemma label_len_is_total_unit_length_witness :
  join (units "|" "|ab|c|") = label_string digraph_params sample_digraph
  ∧ label_len digraph_params sample_digraph
    = sum_list (map String.length (units "|" "|ab|c|")).
Proof.
  apply (label_len_is_total_unit_length digraph_params sample_digraph). discriminate.
Defined.

Section MorePreprocessingFacts.
Context {F : Type} `{Float64 F}.
Variable shape_of : string → positive * positive.

(** Everything a run that returns leaves behind, in terms of the retained
    samples and of their codes. *)
Lemma preprocess_csv_Ok_full (p : Params) (df : list sample) (out : preprocessed F) :
  preprocess_csv shape_of p df = Ok out →
  ∃ codes_list : list (list Z),
    _convert_label_to_dense_codes (map labels (retained shape_of p df))
      (string_split_delimiter p) (max_chars_per_string p)
      (dict_zip (alphabet_units (alphabet p)) (codes (alphabet p)))
      = Ok (map (pad_codes (max_chars_per_string p)) codes_list,
            map (fun cl => length cl) codes_list)
    ∧ length codes_list = length (retained shape_of p df)
    ∧ out_paths out = map paths (retained shape_of p df)
    ∧ label_dense_codes out = map (pad_codes (max_chars_per_string p)) codes_list
    ∧ out_label_codes out
      = map (fun list_ldc => String.concat " " (map (fun ldc : Z => pretty ldc) list_ldc))
            (label_dense_codes out)
    ∧ out_label_len out = map (fun cl => length cl) codes_list
    ∧ returned out = length (retained shape_of p df)
    ∧ printed out
      = (let n_removed :=
           (Z.of_nat (length df) - Z.of_nat (length (retained shape_of p df)))%Z in
         if (0 <? n_removed)%Z
         then Some (n_removed, truediv (of_int (100 * n_removed)) (of_int (Z.of_nat (length df))))
         else None).
Proof.
  unfold preprocess_csv. cbv zeta.
  pose proof (retained_length shape_of p df) as Hlen.
  set (n_removed := (Z.of_nat (length df) - Z.of_nat (length (retained shape_of p df)))%Z).
  intros Hrun.
  assert (Hmsg : (if (0 <? n_removed)%Z
                  then do percent <- int_truediv (100 * n_removed) (Z.of_nat (length df));
                       Ok (Some (n_removed, percent))
                  else Ok None)
                 = Ok (if (0 <? n_removed)%Z
                       then Some (n_removed,
                                  truediv (of_int (100 * n_removed))
                                          (of_int (Z.of_nat (length df))))
                       else None)).
  { destruct (0 <? n_removed)%Z eqn:Hpos; [|reflexivity].
    unfold int_truediv.
    assert (Hnz : (Z.of_nat (length df) =? 0)%Z = false).
    { apply Z.eqb_neq. apply Z.ltb_lt in Hpos. unfold n_removed in Hpos. lia. }
    rewrite Hnz. reflexivity. }
  rewrite Hmsg in Hrun. cbn [bind] in Hrun.
  apply bind_Ok_inv in Hrun as ([d l] & Hconv & Hout).
  pose proof Hconv as Hinv.
  apply convert_Ok_inv in Hinv as (codes_list & Henc & -> & ->).
  injection Hout as <-. cbn.
  exists codes_list. split; [exact Hconv|].
  split; [apply Forall2_length in Henc; rewrite length_map in Henc; symmetry; exact Henc|].
  repeat split; try reflexivity. apply length_map.
Qed.

(** X2.  In the output of a run that returns, the four columns have one
    entry per retained sample, the value returned is that number, and it is
    at most the number of input rows: rows are removed, never added. *)
Theorem output_columns_agree (p : Params) (df : list sample) (out : preprocessed F) :
  preprocess_csv shape_of p df = Ok out →
  length (out_paths out) = returned out
  ∧ length (label_dense_codes out) = returned out
  ∧ length (out_label_codes out) = returned out
  ∧ length (out_label_len out) = returned out
  ∧ (returned out ≤ length df)%nat.
Proof.
  intros Hrun.
  destruct (preprocess_csv_Ok_full p df out Hrun)
    as (cl & _ & Hcl & -> & Hd & -> & -> & -> & _).
  rewrite Hd, !length_map, Hcl. repeat split. apply retained_length.
Qed.

Lemma filter_sublist {A : Type} (f : A → bool) (l : list A) :
  sublist (List.filter f l) l.
Proof.
  induction l as [|x l IH]; simpl; [constructor|].
  destruct (f x); [apply sublist_skip | apply sublist_cons]; exact IH.
Qed.

(** X3.  The paths written are a subsequence of the paths read: the order of
    the input rows is kept and no path is invented. *)
Theorem output_paths_sublist (p : Params) (df : list sample) (out : preprocessed F) :
  preprocess_csv shape_of p df = Ok out →
  sublist (out_paths out) (map paths df).
Proof.
  intros Hrun.
  destruct (preprocess_csv_Ok_full p df out Hrun) as (cl & _ & _ & -> & _).
  apply fmap_sublist. rewrite retained_filter. apply filter_sublist.
Qed.

(** X4.  The diagnostic is printed exactly when a sample was removed; it
    then shows the number of removed samples, the input rows less the rows
    written, and [100 * n_removed / original_len]. *)
Theorem diagnostic_iff_removed (p : Params) (df : list sample) (out : preprocessed F) :
  preprocess_csv shape_of p df = Ok out →
  (printed out = None ↔ returned out = length df)
  ∧ ∀ (n_removed : Z) (percent : F),
      printed out = Some (n_removed, percent) →
      n_removed = (Z.of_nat (length df) - Z.of_nat (returned out))%Z
      ∧ (0 < n_removed)%Z
      ∧ percent = truediv (of_int (100 * n_removed)) (of_int (Z.of_nat (length df))).
Proof.
  intros Hrun.
  destruct (preprocess_csv_Ok_full p df out Hrun)
    as (cl & _ & _ & _ & _ & _ & _ & -> & ->).
  pose proof (retained_length shape_of p df) as Hlen. cbv zeta.
  destruct (0 <? _)%Z eqn:Hpos.
  - apply Z.ltb_lt in Hpos. split.
    + split; [discriminate | lia].
    + intros n pct [= <- <-]. auto.
  - apply Z.ltb_ge in Hpos. split.
    + split; [lia | reflexivity].
    + intros n pct Hsome. discriminate Hsome.
Qed.

Lemma written_rows_shape (p : Params) (df : list sample) (out : preprocessed F) :
  preprocess_csv shape_of p df = Ok out →
  Forall2 (fun (n : nat) (row : list Z) =>
             (Z.of_nat n ≤ max_chars_per_string p)%Z
             ∧ Z.of_nat (length row) = max_chars_per_string p
             ∧ drop n row = replicate (length row - n) 0)
          (out_label_len out) (label_dense_codes out).
Proof.
  intros Hrun.
  apply preprocess_csv_Ok_inv in Hrun as (_ & _ & codes_list & Henc & -> & ->).
  apply Forall2_fmap. apply Forall_Forall2_diag. apply List.Forall_forall.
  intros cl Hcl. apply list_elem_of_In, list_elem_of_lookup_1 in Hcl as [i Hi].
  destruct (Forall2_lookup_r _ _ _ _ _ Henc Hi) as (s & Hs & Hcodes).
  unfold encode_label in Hcodes.
  apply bind_Ok_inv in Hcodes as (us & Hus & Hcodes).
  apply label_chars_Ok_inv in Hus as [Hsep ->].
  apply comprehension_Ok_inv, Forall2_length in Hcodes.
  assert (Hkept : s ∈ retained shape_of p df) by (eapply list_elem_of_lookup_2; exact Hs).
  apply retained_elem in Hkept as (_ & Hmax & _).
  assert (Hle : (length cl ≤ label_len p s)%nat).
  { rewrite <- Hcodes. unfold label_len, label_string. rewrite <- (join_units _ _ Hsep).
    apply length_join_ge, units_truthy. }
  simpl. split; [lia|]. split; [rewrite pad_codes_length; lia|].
  unfold pad_codes. rewrite drop_app_length, length_app, length_replicate.
  f_equal. lia.
Qed.

(** X5.  No true length written exceeds [max_chars_per_string], and it is
    the number of leading codes of its row that came from the label: the
    row has [max_chars_per_string] codes and from the true length on they
    are zeros only. *)
Theorem true_length_within_width (p : Params) (df : list sample) (out : preprocessed F) :
  preprocess_csv shape_of p df = Ok out →
  Forall2 (fun (n : nat) (row : list Z) =>
             (Z.of_nat n ≤ max_chars_per_string p)%Z
             ∧ Z.of_nat (length row) = max_chars_per_string p
             ∧ drop n row = replicate (length row - n) 0)
          (out_label_len out) (label_dense_codes out).
Proof. apply written_rows_shape. Qed.

End MorePreprocessingFacts.

Lemma output_columns_agree_witness :
  length (out_paths preprocessed_one_of_two) = 1%nat
  ∧ length (label_dense_codes preprocessed_one_of_two) = 1%nat
  ∧ length (out_label_codes preprocessed_one_of_two) = 1%nat
  ∧ length (out_label_len preprocessed_one_of_two) = 1%nat
  ∧ (1 ≤ 2)%nat.
Proof.
  apply (output_columns_agree images_40x32 spec_params [sample_AB1; sample_twelve]
           preprocessed_one_of_two).
  vm_compute. reflexivity.
Defined.

Lemma output_paths_sublist_witness :
  sublist ["/data/img001.jpg"] ["/data/img001.jpg"; "/data/img005.jpg"].
Proof.
  apply (output_paths_sublist images_40x32 spec_params [sample_AB1; sample_twelve]
           preprocessed_one_of_two).
  vm_compute. reflexivity.
Defined.

Lemma diagnostic_iff_removed_witness :
  (printed preprocessed_one_of_two = None ↔ returned preprocessed_one_of_two = 2%nat)
  ∧ ∀ (n_removed : Z) (percent : Q),
      printed preprocessed_one_of_two = Some (n_removed, percent) →
      n_removed = (2 - 1)%Z
      ∧ (0 < n_removed)%Z
      ∧ percent = truediv (of_int (100 * n_removed)) (of_int 2).
Proof.
  apply (diagnostic_iff_removed images_40x32 spec_params [sample_AB1; sample_twelve]
           preprocessed_one_of_two).
  vm_compute. reflexivity.
Defined.

Lemma true_length_within_width_witness :
  Forall2 (fun (n : nat) (row : list Z) =>
             (Z.of_nat n ≤ 5)%Z
             ∧ Z.of_nat (length row) = 5
             ∧ drop n row = replicate (length row - n) 0)
          [3%nat] [[1; 2; 3; 0; 0]].
Proof.
  apply (true_length_within_width images_40x32 spec_params [sample_AB1; sample_twelve]
           preprocessed_one_of_two).
  vm_compute. reflexivity.
Defined.

(** ** Rows are treated one by one *)

Lemma comprehension_app {A B : Type} (f : A → result B) (l1 l2 : list A) :
  comprehension f (l1 ++ l2)
  = do ys1 <- comprehension f l1; do ys2 <- comprehension f l2; Ok (ys1 ++ ys2).
Proof.
  induction l1 as [|x l1 IH]; simpl.
  - destruct (comprehension f l2); reflexivity.
  - destruct (f x) as [y|e]; simpl; [|reflexivity]. rewrite IH.
    destruct (comprehension f l1) as [ys1|e1]; simpl; [|reflexivity].
    destruct (comprehension f l2) as [ys2|e2]; reflexivity.
Qed.

Lemma convert_app (labels1 labels2 : list string) (split_char : string) (max_width : Z)
    (table : gmap string Z) (d1 d2 : list (list Z)) (n1 n2 : list nat) :
  _convert_label_to_dense_codes labels1 split_char max_width table = Ok (d1, n1) →
  _convert_label_to_dense_codes labels2 split_char max_width table = Ok (d2, n2) →
  _convert_label_to_dense_codes (labels1 ++ labels2) split_char max_width table
  = Ok (d1 ++ d2, n1 ++ n2).
Proof.
  unfold _convert_label_to_dense_codes. intros H1 H2.
  apply bind_Ok_inv in H1 as (lc1 & Hs1 & H1). apply bind_Ok_inv in H1 as (cl1 & Hc1 & H1).
  apply bind_Ok_inv in H2 as (lc2 & Hs2 & H2). apply bind_Ok_inv in H2 as (cl2 & Hc2 & H2).
  injection H1 as <- <-. injection H2 as <- <-.
  rewrite comprehension_app, Hs1, Hs2. cbn [bind].
  rewrite comprehension_app, Hc1, Hc2. cbn [bind].
  rewrite !map_app. reflexivity.
Qed.

Lemma comprehension_app_raise {A B : Type} (f : A → result B) (l1 l2 : list A) (e : exn) :
  comprehension f l1 = Raise e → comprehension f (l1 ++ l2) = Raise e.
Proof. intros Hr. rewrite comprehension_app, Hr. reflexivity. Qed.

Lemma convert_app_raise (labels1 labels2 : list string) (split_char : string)
    (max_width : Z) (table : gmap string Z) (e : exn) :
  _convert_label_to_dense_codes labels1 split_char max_width table = Raise e →
  _convert_label_to_dense_codes (labels1 ++ labels2) split_char max_width table = Raise e.
Proof.
  unfold _convert_label_to_dense_codes. intros H1.
  destruct (comprehension (label_chars split_char) labels1) as [lc1|e1] eqn:Hs1.
  - cbn [bind] in H1.
    destruct (comprehension (comprehension (getitem table)) lc1) as [cl1|e2] eqn:Hc1;
      [discriminate|].
    cbn [bind] in H1. injection H1 as ->.
    rewrite comprehension_app, Hs1. cbn [bind].
    destruct (comprehension (label_chars split_char) labels2) as [lc2|e3] eqn:Hs2.
    + cbn [bind]. rewrite (comprehension_app_raise _ _ _ _ Hc1). reflexivity.
    + (* the split of a later label raises only with an empty delimiter, and
         then no earlier label was split *)
      exfalso. destruct split_char as [|c sep].
      * destruct labels1 as [|l labels1]; [|discriminate Hs1].
        injection Hs1 as <-. discriminate Hc1.
      * rewrite (comprehension_total (label_chars (String c sep)) (units (String c sep)))
          in Hs2 by (intros; apply label_chars_units; discriminate).
        discriminate Hs2.
  - cbn [bind] in H1. injection H1 as ->.
    rewrite (comprehension_app_raise _ _ _ _ Hs1). reflexivity.
Qed.

Section Sharding.
Context {F : Type} `{Float64 F}.
Variable shape_of : string → positive * positive.

Lemma retained_app (p : Params) (df1 df2 : list sample) :
  retained shape_of p (df1 ++ df2) = retained shape_of p df1 ++ retained shape_of p df2.
Proof. rewrite !retained_filter. apply List.filter_app. Qed.

(** X6.  Rows are filtered and encoded one by one: when the runs on two
    inputs return, the run on the two inputs put end to end returns, and
    each column it writes is the column of the first followed by the column
    of the second. *)
Theorem preprocess_csv_app (p : Params) (df1 df2 : list sample)
    (out1 out2 : preprocessed F) :
  preprocess_csv shape_of p df1 = Ok out1 →
  preprocess_csv shape_of p df2 = Ok out2 →
  ∃ out : preprocessed F,
    preprocess_csv shape_of p (df1 ++ df2) = Ok out
    ∧ out_paths out = out_paths out1 ++ out_paths out2
    ∧ label_dense_codes out = label_dense_codes out1 ++ label_dense_codes out2
    ∧ out_label_codes out = out_label_codes out1 ++ out_label_codes out2
    ∧ out_label_len out = out_label_len out1 ++ out_label_len out2
    ∧ returned out = (returned out1 + returned out2)%nat.
Proof.
  intros H1 H2.
  destruct (preprocess_csv_Ok_full shape_of p df1 out1 H1)
    as (cl1 & Hc1 & _ & Hp1 & Hd1 & Ht1 & Hn1 & Hr1 & _).
  destruct (preprocess_csv_Ok_full shape_of p df2 out2 H2)
    as (cl2 & Hc2 & _ & Hp2 & Hd2 & Ht2 & Hn2 & Hr2 & _).
  destruct (preprocess_csv_encoding shape_of p (df1 ++ df2)) as [message ->].
  rewrite retained_app, map_app, (convert_app _ _ _ _ _ _ _ _ _ Hc1 Hc2).
  cbn [bind fst snd]. eexists. split; [reflexivity|]. cbn.
  rewrite Hp1, Hp2, Hd1, Hd2, Ht1, Ht2, Hn1, Hn2, Hr1, Hr2, Hd1, Hd2.
  rewrite !map_app, !length_app, !length_map. repeat split; reflexivity.
Qed.

(** X7.  The earliest offending row decides: when the run on an input
    raises, the run on that input followed by any further rows raises the
    same exception. *)
Theorem preprocess_csv_app_raise (p : Params) (df1 df2 : list sample) (e : exn) :
  preprocess_csv shape_of p df1 = Raise e →
  preprocess_csv shape_of p (df1 ++ df2) = Raise e.
Proof.
  destruct (preprocess_csv_encoding shape_of p df1) as [m1 ->].
  destruct (preprocess_csv_encoding shape_of p (df1 ++ df2)) as [m2 ->].
  intros H1.
  destruct (_convert_label_to_dense_codes (map labels (retained shape_of p df1)) _ _ _)
    as [enc|e1] eqn:Hc1; [discriminate|].
  cbn [bind] in H1. injection H1 as ->.
  rewrite retained_app, map_app, (convert_app_raise _ _ _ _ _ _ Hc1). reflexivity.
Qed.

End Sharding.

Lemma preprocess_csv_app_witness :
  ∃ out : preprocessed Q,
    preprocess_csv images_40x32 spec_params ([sample_AB1] ++ [sample_AB1; sample_twelve])
      = Ok out
    ∧ out_paths out = ["/data/img001.jpg"; "/data/img001.jpg"]
    ∧ label_dense_codes out = [[1; 2; 3; 0; 0]; [1; 2; 3; 0; 0]]
    ∧ out_label_codes out = ["1 2 3 0 0"; "1 2 3 0 0"]
    ∧ out_label_len out = [3%nat; 3%nat]
    ∧ returned out = 2%nat.
Proof.
  apply (preprocess_csv_app images_40x32 spec_params [sample_AB1]
           [sample_AB1; sample_twelve] preprocessed_AB1 preprocessed_one_of_two);
    vm_compute; reflexivity.
Defined.

Lemma preprocess_csv_app_raise_witness :
  preprocess_csv (F:=Q) images_40x32 spec_params ([sample_unknown] ++ [sample_AB1])
  = Raise (KeyError "Z").
Proof.
  apply (preprocess_csv_app_raise images_40x32 spec_params [sample_unknown] [sample_AB1]).
  vm_compute. reflexivity.
Defined.

(** ** Which exception, and for which unit *)

Lemma comprehension_first_raise {A B : Type} (f : A → result B)
    (before : list A) (x : A) (after : list A) (e : exn) :
  Forall (fun y => ∃ v, f y = Ok v) before →
  f x = Raise e →
  comprehension f (before ++ x :: after) = Raise e.
Proof.
  intros Hbefore Hx. induction Hbefore as [|y before [v Hv] _ IH]; simpl.
  - rewrite Hx. reflexivity.
  - rewrite Hv. cbn [bind]. rewrite IH. reflexivity.
Qed.

Lemma comprehension_getitem_defined (table : gmap string Z) (us : list string) :
  Forall (fun u => is_Some (table !! u)) us →
  ∃ cl, comprehension (getitem table) us = Ok cl.
Proof.
  induction 1 as [|u us [c Hc] _ [cl IH]]; simpl; [eauto|].
  unfold getitem at 1. rewrite Hc. cbn [bind]. rewrite IH. cbn [bind]. eauto.
Qed.

Section WhichException.
Context {F : Type} `{Float64 F}.
Variable shape_of : string → positive * positive.

(** X8.  With the empty string as delimiter, [str.split] raises on the first
    retained label: the run raises a [ValueError] as soon as one sample is
    retained, and returns an empty output when none is. *)
Theorem empty_delimiter_raises (p : Params) (df : list sample) :
  string_split_delimiter p = "" →
  (retained shape_of p df ≠ [] →
   preprocess_csv shape_of p df = Raise (ValueError "empty separator"))
  ∧ (retained shape_of p df = [] →
     ∃ out, preprocess_csv shape_of p df = Ok out ∧ returned out = 0%nat
            ∧ out_paths out = [] ∧ out_label_codes out = []).
Proof.
  intros Hsep. destruct (preprocess_csv_encoding shape_of p df) as [message ->].
  rewrite Hsep. split.
  - destruct (retained shape_of p df) as [|s kept]; [congruence|]. intros _. reflexivity.
  - intros ->. eexists. split; [reflexivity|]. repeat split; reflexivity.
Qed.

(** X9.  The [KeyError] names the first unit, in the order of the rows and
    of the units within a row, that is not in the table. *)
Theorem first_missing_unit_is_reported (p : Params) (df : list sample)
    (before : list sample) (s : sample) (after : list sample)
    (known : list string) (u : string) (rest : list string) :
  string_split_delimiter p ≠ "" →
  retained shape_of p df = before ++ s :: after →
  Forall (fun s' =>
            Forall (fun u' =>
                      is_Some (dict_zip (alphabet_units (alphabet p)) (codes (alphabet p)) !! u'))
                   (units (string_split_delimiter p) (labels s')))
         before →
  units (string_split_delimiter p) (labels s) = known ++ u :: rest →
  Forall (fun u' => is_Some (dict_zip (alphabet_units (alphabet p)) (codes (alphabet p)) !! u'))
         known →
  dict_zip (alphabet_units (alphabet p)) (codes (alphabet p)) !! u = None →
  preprocess_csv shape_of p df = Raise (KeyError u).
Proof.
  intros Hsep Hkept Hbefore Hunits Hknown Hnone.
  destruct (preprocess_csv_encoding shape_of p df) as [message ->].
  set (table := dict_zip (alphabet_units (alphabet p)) (codes (alphabet p))) in *.
  unfold _convert_label_to_dense_codes.
  rewrite (comprehension_total (label_chars (string_split_delimiter p))
             (units (string_split_delimiter p)))
    by (intros; apply label_chars_units; exact Hsep).
  cbn [bind]. rewrite Hkept, !map_app. cbn [map].
  rewrite (comprehension_first_raise (comprehension (getitem table)) _ _ _ (KeyError u)).
  - reflexivity.
  - apply List.Forall_forall. intros us Hus.
    apply List.in_map_iff in Hus as (label & <- & Hlabel).
    apply List.in_map_iff in Hlabel as (s' & <- & Hs').
    rewrite List.Forall_forall in Hbefore.
    apply comprehension_getitem_defined. apply Hbefore. exact Hs'.
  - rewrite Hunits. apply comprehension_first_raise.
    + eapply Forall_impl; [exact Hknown|]. intros u' [c Hc]. exists c.
      unfold getitem. rewrite Hc. reflexivity.
    + unfold getitem. rewrite Hnone. reflexivity.
Qed.

End WhichException.

Lemma empty_delimiter_raises_witness :
  preprocess_csv (F:=Q) images_40x32 empty_delimiter_params [sample_AB1]
  = Raise (ValueError "empty separator").
Proof.
  destruct (empty_delimiter_raises images_40x32 empty_delimiter_params [sample_AB1])
    as [Hraises _].
  - reflexivity.
  - apply Hraises. vm_compute. discriminate.
Defined.

Lemma first_missing_unit_is_reported_witness :
  preprocess_csv (F:=Q) images_40x32 spec_params [sample_AB1; sample_twelve; sample_unknown]
  = Raise (KeyError "Z").
Proof.
  apply (first_missing_unit_is_reported images_40x32 spec_params
           [sample_AB1; sample_twelve; sample_unknown]
           [sample_AB1] sample_unknown [] ["A"] "Z" []).
  - discriminate.
  - vm_compute. reflexivity.
  - apply (bool_decide_unpack _). vm_compute. exact I.
  - vm_compute. reflexivity.
  - apply (bool_decide_unpack _). vm_compute. exact I.
  - vm_compute. reflexivity.
Defined.

(** ** Bounds in exact arithmetic *)



(** ** What the metric reads in a row *)

Lemma sparse_row_length_le (mask : Z) (row : list Z) :
  (length (sparse_row mask row) ≤ length row)%nat.
Proof.
  unfold sparse_row. induction row as [|c row IH]; simpl; [lia|].
  destruct (c =? mask)%Z; simpl; lia.
Qed.

(** X11.  [warp_cer_metric] takes the non-zero codes of a row for the true
    sequence, and the length column for the number of characters.  For a
    row written by [preprocess_csv] the first never has more entries than
    the second says, and when no unit of the label has code 0 the two
    agree: the non-zero codes are the first [true length] codes of the
    row. *)
Theorem label_sparse_matches_true_length {F : Type} `{Float64 F}
    (shape_of : string → positive * positive) (p : Params) (df : list sample)
    (out : preprocessed F) (i : nat) (s : sample) :
  preprocess_csv shape_of p df = Ok out →
  retained shape_of p df !! i = Some s →
  ∃ (dense : list Z) (n : nat),
    label_dense_codes out !! i = Some dense
    ∧ out_label_len out !! i = Some n
    ∧ (length (sparse_row 0 dense) ≤ n)%nat
    ∧ (Forall (fun u => dict_zip (alphabet_units (alphabet p)) (codes (alphabet p)) !! u
                        ≠ Some 0)
              (units (string_split_delimiter p) (labels s)) →
       sparse_row 0 dense = take n dense ∧ length (sparse_row 0 dense) = n).
Proof.
  intros Hrun Hi.
  destruct (preprocess_csv_row shape_of p df out i s Hrun Hi)
    as (cl & Hcl & _ & _ & Hdense & Hlen).
  exists (pad_codes (max_chars_per_string p) cl), (length cl).
  split; [exact Hdense|]. split; [exact Hlen|].
  assert (Hpad : sparse_row 0 (pad_codes (max_chars_per_string p) cl) = sparse_row 0 cl).
  { unfold pad_codes, sparse_row. rewrite List.filter_app.
    fold (sparse_row 0 (replicate (Z.to_nat (Z.max 0 (max_chars_per_string p
                                                        - Z.of_nat (length cl)))) 0)).
    rewrite sparse_row_replicate. apply app_nil_r. }
  split; [rewrite Hpad; apply sparse_row_length_le|].
  intros Hnz.
  assert (Hcodes : Forall (fun c => c ≠ 0) cl).
  { clear - Hcl Hnz. induction Hcl as [|u c us cl Huc _ IH]; [constructor|].
    inversion Hnz as [|? ? Hu Hus]; subst. constructor; [|apply IH; exact Hus].
    intros ->. apply Hu. exact Huc. }
  rewrite Hpad, (sparse_row_id _ _ Hcodes), pad_codes_prefix. auto.
Qed.

Lemma label_sparse_matches_true_length_witness :
  ∃ (dense : list Z) (n : nat),
    label_dense_codes preprocessed_AB1 !! 0%nat = Some dense
    ∧ out_label_len preprocessed_AB1 !! 0%nat = Some n
    ∧ (length (sparse_row 0 dense) ≤ n)%nat
    ∧ (Forall (fun u => dict_zip (alphabet_units spec_alphabet) (codes spec_alphabet) !! u
                        ≠ Some 0)
              (units "|" "|A|B|1|") →
       sparse_row 0 dense = take n dense ∧ length (sparse_row 0 dense) = n).
Proof.
  apply (label_sparse_matches_true_length images_40x32 spec_params [sample_AB1]
           preprocessed_AB1 0 sample_AB1); vm_compute; reflexivity.
Defined.

(** * Properties of [data_preprocessing] *)

Lemma append_inv_head (a x y : string) : (a ++ x = a ++ y)%string → x = y.
Proof. induction a as [|c a IH]; simpl; [auto|]. intros [= Heq]. auto. Qed.

(** The two output files have different names, whatever the directory. *)
Lemma output_names_differ (output_dir : string) :
  os_path_join output_dir "updated_train.csv" ≠ os_path_join output_dir "updated_eval.csv".
Proof.
  unfold os_path_join. cbn [str_startswith String.prefix].
  destruct (ascii_dec "/" "u") as [Habs|_]; [discriminate Habs|].
  destruct output_dir as [|c d]; [discriminate|].
  destruct (str_endswith_char "/" (String c d)); intros Heq;
    apply append_inv_head in Heq; discriminate Heq.
Qed.

Section DataPreprocessingFacts.
Context {F : Type} `{Float64 F}.
Variable shape_of : string → positive * positive.

(** X12.  When both files are preprocessed without an exception,
    [data_preprocessing] returns the two output names, which differ, and
    the two numbers of rows written; afterwards each name holds its own
    output and no other file has changed. *)
Theorem data_preprocessing_returns
    (written : gmap string (preprocessed F)) (params : Params) (output_model_dir : string)
    (csv_train csv_eval : list sample) (out_train out_eval : preprocessed F) :
  preprocess_csv shape_of params csv_train = Ok out_train →
  preprocess_csv shape_of params csv_eval = Ok out_eval →
  ∃ (written' : gmap string (preprocessed F)) (csv_train_output csv_eval_output : string),
    data_preprocessing shape_of written params output_model_dir csv_train csv_eval
    = (written',
       Ok (csv_train_output, csv_eval_output, returned out_train, returned out_eval))
    ∧ csv_train_output ≠ csv_eval_output
    ∧ written' !! csv_train_output = Some out_train
    ∧ written' !! csv_eval_output = Some out_eval
    ∧ ∀ name : string,
        name ≠ csv_train_output → name ≠ csv_eval_output →
        written' !! name = written !! name.
Proof.
  intros Htrain Heval. unfold data_preprocessing, preprocess_csv_file, to_csv.
  rewrite Htrain, Heval.
  pose proof (output_names_differ (os_path_join output_model_dir "preprocessed")) as Hne.
  do 3 eexists. split; [reflexivity|]. split; [exact Hne|].
  split; [rewrite lookup_insert_ne by congruence; apply lookup_insert_eq|].
  split; [apply lookup_insert_eq|].
  intros name Ht He. rewrite !lookup_insert_ne by congruence. reflexivity.
Qed.


End DataPreprocessingFacts.

Lemma data_preprocessing_returns_witness :
  ∃ (written' : gmap string (preprocessed Q)) (csv_train_output csv_eval_output : string),
    data_preprocessing images_40x32 ∅ spec_params "model" [sample_AB1]
      [sample_AB1; sample_twelve]
    = (written', Ok (csv_train_output, csv_eval_output, 1%nat, 1%nat))
    ∧ csv_train_output ≠ csv_eval_output
    ∧ written' !! csv_train_output = Some preprocessed_AB1
    ∧ written' !! csv_eval_output = Some preprocessed_one_of_two
    ∧ ∀ name : string,
        name ≠ csv_train_output → name ≠ csv_eval_output →
        written' !! name = (∅ : gmap string (preprocessed Q)) !! name.
Proof.
  apply (data_preprocessing_returns images_40x32 ∅ spec_params "model" [sample_AB1]
           [sample_AB1; sample_twelve] preprocessed_AB1 preprocessed_one_of_two);
    vm_compute; reflexivity.
Defined.


(** * Further properties of [model.py] *)

(** ** The accumulating metric *)

Lemma CERMetric_after_reset (self : CERMetric) (batches : list batch) :
  let total_distance := reduce_sum (map batch_distance batches) in
  let total_chars := reduce_sum (map (fun b => reduce_sum (label_seq_length b)) batches) in
  let epoch := foldl update_state (reset_states self) batches in
  ((0 < total_chars)%Z →
   ∃ q : Q, CERMetric_result epoch = Finite q
            ∧ (q == inject_Z total_distance / inject_Z total_chars)%Q)
  ∧ ((total_chars ≤ 0)%Z → CERMetric_result epoch = Finite 1).
Proof.
  cbv zeta.
  destruct (CERMetric_running_sums (reset_states self) batches) as [Hd Hc].
  simpl in Hd, Hc. rewrite Qplus_0_l in Hd, Hc. split.
  - intros Hpos. eexists. split.
    + apply CERMetric_result_ratio. rewrite Hc. rewrite <- (Zlt_Qlt 0). exact Hpos.
    + rewrite Hd, Hc. reflexivity.
  - intros Hle. apply CERMetric_result_without_characters.
    rewrite Hc. rewrite <- (Zle_Qle _ 0). exact Hle.
Qed.



Lemma reduce_sum_Permutation (l1 l2 : list Z) :
  l1 ≡ₚ l2 → reduce_sum l1 = reduce_sum l2.
Proof.
  induction 1 as [|x l1 l2 _ IH|x y l|l1 l2 l3 _ IH1 _ IH2]; simpl; lia.
Qed.



(** ** The metric of one batch *)

Lemma edit_distance_cons_cons (x y : Z) (hyp truth : list Z) :
  edit_distance (x :: hyp) (y :: truth)
  = Nat.min (Nat.min (S (edit_distance hyp (y :: truth)))
                     (S (edit_distance (x :: hyp) truth)))
            ((if (x =? y)%Z then 0 else 1) + edit_distance hyp truth).
Proof. reflexivity. Qed.

Lemma edit_distance_refl (l : list Z) : edit_distance l l = 0%nat.
Proof.
  induction l as [|x l IH]; [reflexivity|].
  rewrite edit_distance_cons_cons, Z.eqb_refl, IH. apply Nat.min_0_r.
Qed.

(** X16.  When every decoded prediction of a batch is the sequence of
    non-zero codes of its label row, the summed edit distance is 0, and
    [warp_cer_metric] is 0 provided the batch has a true character. *)
Theorem perfect_prediction_has_zero_cer (b : batch) :
  map (sparse_row (-1)) (ctc_decode (y_pred b) (input_seq_len b))
  = map (sparse_row 0) (label_codes b) →
  reduce_sum (label_seq_length b) ≠ 0 →
  batch_distance b = 0
  ∧ ∃ q : Q, warp_cer_metric b = Finite q ∧ (q == 0)%Q.
Proof.
  intros Hsame Hchars.
  assert (Hzero : batch_distance b = 0).
  { unfold batch_distance. rewrite Hsame. clear Hsame.
    induction (map (sparse_row 0) (label_codes b)) as [|row rows IH]; [reflexivity|].
    change (Z.of_nat (edit_distance row row)
            + reduce_sum (map (fun '(hyp, truth) => Z.of_nat (edit_distance hyp truth))
                              (zip rows rows)) = 0).
    rewrite edit_distance_refl, IH. reflexivity. }
  split; [exact Hzero|].
  unfold warp_cer_metric, tf_divide. rewrite Hzero.
  apply Z.eqb_neq in Hchars. rewrite Hchars.
  eexists. split; [reflexivity|]. unfold Qdiv. apply Qmult_0_l.
Qed.

Lemma perfect_prediction_has_zero_cer_witness :
  batch_distance batch_three_right = 0
  ∧ ∃ q : Q, warp_cer_metric batch_three_right = Finite q ∧ (q == 0)%Q.
Proof.
  apply (perfect_prediction_has_zero_cer batch_three_right).
  - vm_compute. reflexivity.
  - vm_compute. discriminate.
Defined.

(** ** The two models and the rows they are fed *)

(** X17.  The training model and the inference model are built or refused
    together, over the same stack of layers; and every code row written by
    [preprocess_csv] has the width the training model declares for its
    [label_codes] input. *)
Theorem models_share_the_network {F : Type} `{Float64 F}
    (shape_of : string → positive * positive) (p : Params) (df : list sample)
    (out : preprocessed F) (train : ModelSpec) :
  preprocess_csv shape_of p df = Ok out →
  get_model_train p = Ok train →
  (∃ inference : ModelSpec,
     get_model_inference p = Ok inference
     ∧ model_layers inference = model_layers train
     ∧ get_crnn_output p = Ok (model_layers train))
  ∧ (∃ label_codes_input : InputSpec,
       model_inputs train !! 1%nat = Some label_codes_input
       ∧ input_name label_codes_input = "label_codes"
       ∧ Forall (fun row => input_dims label_codes_input = [Z.of_nat (length row)])
                (label_dense_codes out)).
Proof.
  intros Hrun Htrain. unfold get_model_train in Htrain.
  apply bind_Ok_inv in Htrain as (net & Hnet & Htrain). injection Htrain as <-.
  split.
  - unfold get_model_inference. rewrite Hnet. eexists. repeat split; reflexivity.
  - eexists. split; [reflexivity|]. split; [reflexivity|]. simpl.
    pose proof (written_rows_shape shape_of p df out Hrun) as Hrows.
    clear - Hrows. induction Hrows as [|n row ns rows (_ & Hw & _) _ IH]; constructor.
    + rewrite Hw. reflexivity.
    + exact IH.
Qed.

Lemma models_share_the_network_witness :
  ∃ inference : ModelSpec,
    get_model_inference spec_params = Ok inference
    ∧ length (model_layers inference) = 8%nat.
Proof.
  destruct (get_model_train spec_params) as [train|e] eqn:Htrain;
    [|vm_compute in Htrain; discriminate Htrain].
  destruct (models_share_the_network images_40x32 spec_params [sample_AB1]
              preprocessed_AB1 train) as [(inference & Hinf & Hlayers & _) _].
  - vm_compute. reflexivity.
  - exact Htrain.
  - exists inference. split; [exact Hinf|]. rewrite Hlayers.
    vm_compute in Htrain. injection Htrain as <-. reflexivity.
Defined.

(** * Properties of [hlp/prepare_data.py] *)

(** ** Splitting on one character *)

Lemma split_go_single_cons (c a : ascii) (s : string) :
  split_go (String c "") (String a s) 0
  = if ascii_dec c a then "" :: split_go (String c "") s 0
    else cons_head a (split_go (String c "") s 0).
Proof. cbn. destruct (ascii_dec c a); [destruct s|]; reflexivity. Qed.

Lemma split_go_nonempty (sep s : string) (skip : nat) : split_go sep s skip ≠ [].
Proof.
  revert skip. induction s as [|a s IH]; intros skip; [discriminate|].
  cbn [split_go]. destruct skip as [|k]; [|apply IH].
  destruct (String.prefix sep (String a s)); [discriminate|].
  specialize (IH 0%nat). destruct (split_go sep s 0); [congruence | discriminate].
Qed.

(** A piece without the separator, followed by the separator, is the first
    piece of the split. *)
Lemma split_go_piece (c : ascii) (piece rest : string) :
  has_char c piece = false →
  split_go (String c "") (piece ++ String c rest) 0 = piece :: split_go (String c "") rest 0.
Proof.
  induction piece as [|a piece IH]; intros Hfree.
  - change ("" ++ String c rest)%string with (String c rest).
    rewrite split_go_single_cons. destruct (ascii_dec c c); [reflexivity | congruence].
  - cbn [has_char] in Hfree. destruct (ascii_dec c a) as [|Hne]; [discriminate|].
    change (String a piece ++ String c rest)%string with (String a (piece ++ String c rest)).
    rewrite split_go_single_cons. destruct (ascii_dec c a); [congruence|].
    rewrite (IH Hfree). reflexivity.
Qed.

Lemma split_go_last_piece (c : ascii) (piece : string) :
  has_char c piece = false → split_go (String c "") piece 0 = [piece].
Proof.
  induction piece as [|a piece IH]; intros Hfree; [reflexivity|].
  cbn [has_char] in Hfree. destruct (ascii_dec c a) as [|Hne]; [discriminate|].
  rewrite split_go_single_cons. destruct (ascii_dec c a); [congruence|].
  rewrite (IH Hfree). reflexivity.
Qed.

(** [sep.join(pieces).split(sep) == pieces] for a separator of one character
    that occurs in no piece, and at least one piece. *)
Lemma split_concat (c : ascii) (pieces : list string) :
  pieces ≠ [] →
  Forall (fun piece => has_char c piece = false) pieces →
  split_go (String c "") (String.concat (String c "") pieces) 0 = pieces.
Proof.
  intros Hne Hfree. induction Hfree as [|piece pieces Hpiece _ IH]; [congruence|].
  destruct pieces as [|piece' pieces].
  - simpl. apply split_go_last_piece. exact Hpiece.
  - change (String.concat (String c "") (piece :: piece' :: pieces))
      with (piece ++ String c (String.concat (String c "") (piece' :: pieces)))%string.
    rewrite (split_go_piece _ _ _ Hpiece), IH by discriminate. reflexivity.
Qed.

(** ** The label of a plate *)

Lemma has_char_lstrip (c : ascii) (s : string) :
  has_char c s = false → has_char c (lstrip s) = false.
Proof.
  induction s as [|a s IH]; [reflexivity|]. intros Hfree. cbn [lstrip].
  destruct (isspace a); [|exact Hfree].
  cbn [has_char] in Hfree. destruct (ascii_dec c a); [discriminate | auto].
Qed.

Lemma has_char_rstrip (c : ascii) (s : string) :
  has_char c s = false → has_char c (rstrip s) = false.
Proof.
  induction s as [|a s IH]; [reflexivity|]. intros Hfree. cbn [rstrip].
  cbn [has_char] in Hfree. destruct (ascii_dec c a) as [|Hne] eqn:Hdec; [discriminate|].
  specialize (IH Hfree).
  destruct (rstrip s) as [|b kept].
  - destruct (isspace a); [reflexivity|]. cbn [has_char]. rewrite Hdec. reflexivity.
  - cbn [has_char]. rewrite Hdec. exact IH.
Qed.

Lemma join_list_of_str (s : string) : join (list_of_str s) = s.
Proof. induction s as [|a s IH]; simpl; [reflexivity | rewrite IH; reflexivity]. Qed.

Lemma list_of_str_single (s : string) :
  Forall (fun u => String.length u = 1%nat) (list_of_str s).
Proof. induction s as [|a s IH]; simpl; constructor; [reflexivity | exact IH]. Qed.

Lemma list_of_str_truthy (s : string) : List.filter truthy (list_of_str s) = list_of_str s.
Proof. induction s as [|a s IH]; simpl; [reflexivity | rewrite IH; reflexivity]. Qed.

Lemma list_of_str_free (c : ascii) (s : string) :
  has_char c s = false → Forall (fun piece => has_char c piece = false) (list_of_str s).
Proof.
  induction s as [|a s IH]; intros Hfree; simpl; constructor.
  - cbn [has_char] in *. destruct (ascii_dec c a); [discriminate | reflexivity].
  - apply IH. cbn [has_char] in Hfree. destruct (ascii_dec c a); [discriminate | exact Hfree].
Qed.

Lemma append_empty_r (s : string) : (s ++ "")%string = s.
Proof.
  induction s as [|a s IH]; [reflexivity|].
  change (String a s ++ "")%string with (String a (s ++ "")). f_equal. exact IH.
Qed.

Lemma append_assoc (s t u : string) : ((s ++ t) ++ u = s ++ (t ++ u))%string.
Proof.
  induction s as [|a s IH]; [reflexivity|].
  change (String a ((s ++ t) ++ u) = String a (s ++ (t ++ u)))%string. f_equal. exact IH.
Qed.

Lemma concat_snoc_empty (sep : string) (pieces : list string) :
  pieces ≠ [] →
  String.concat sep (pieces ++ [""]) = (String.concat sep pieces ++ sep)%string.
Proof.
  induction pieces as [|piece pieces IH]; [congruence|]. intros _.
  destruct pieces as [|piece' pieces].
  - change (String.concat sep ([piece] ++ [""])) with (piece ++ sep ++ "")%string.
    rewrite append_empty_r. reflexivity.
  - change (String.concat sep ((piece :: piece' :: pieces) ++ [""]))
      with (piece ++ sep ++ String.concat sep ((piece' :: pieces) ++ [""]))%string.
    rewrite IH by discriminate.
    change (String.concat sep (piece :: piece' :: pieces))
      with (piece ++ sep ++ String.concat sep (piece' :: pieces))%string.
    rewrite !append_assoc. reflexivity.
Qed.

(** The units of the label made for a plate without [|] are the characters
    of the plate, stripped. *)
Lemma units_plate_label (lp : string) :
  has_char "|" lp = false →
  units "|" (plate_label lp) = list_of_str (str_strip lp).
Proof.
  intros Hfree.
  assert (Hstrip : has_char "|" (str_strip lp) = false)
    by (apply has_char_rstrip, has_char_lstrip; exact Hfree).
  unfold units, plate_label.
  change ("|" ++ String.concat "|" (list_of_str (str_strip lp)) ++ "|")%string
    with (String "|" (String.concat "|" (list_of_str (str_strip lp)) ++ "|")).
  rewrite split_go_single_cons. destruct (ascii_dec "|" "|"); [|congruence].
  cbn [List.filter truthy].
  destruct (str_strip lp) as [|a t] eqn:Ht.
  - reflexivity.
  - rewrite <- concat_snoc_empty by discriminate.
    rewrite split_concat.
    + rewrite List.filter_app, list_of_str_truthy. cbn [List.filter truthy].
      apply app_nil_r.
    + discriminate.
    + apply Forall_app. split; [apply list_of_str_free; exact Hstrip|].
      constructor; [reflexivity | constructor].
Qed.

Lemma length_list_of_str (s : string) : length (list_of_str s) = String.length s.
Proof. induction s as [|a s IH]; simpl; [reflexivity | rewrite IH; reflexivity]. Qed.

(** X18.  The label that [prepare_data] writes for a plate without the
    character [|] splits back, on [|], into the characters of the stripped
    plate, one unit each; with the delimiters removed it is the stripped
    plate. *)
Theorem plate_label_units (lp : string) :
  has_char "|" lp = false →
  units "|" (plate_label lp) = list_of_str (str_strip lp)
  ∧ re_sub_escape "|" (plate_label lp) = str_strip lp
  ∧ length (units "|" (plate_label lp)) = String.length (str_strip lp).
Proof.
  intros Hfree. pose proof (units_plate_label lp Hfree) as Hunits.
  split; [exact Hunits|]. split.
  - rewrite <- (join_units "|" (plate_label lp)) by discriminate.
    rewrite Hunits. apply join_list_of_str.
  - rewrite Hunits. apply length_list_of_str.
Qed.

Lemma plate_label_units_witness :
  units "|" (plate_label "  9B52145 ") = list_of_str (str_strip "  9B52145 ")
  ∧ re_sub_escape "|" (plate_label "  9B52145 ") = str_strip "  9B52145 "
  ∧ length (units "|" (plate_label "  9B52145 ")) = String.length (str_strip "  9B52145 ").
Proof. apply (plate_label_units "  9B52145 "). reflexivity. Defined.

(** X19.  For a row made by [prepare_data] from a plate without [|] and
    preprocessed with [|] as delimiter, [label_len] is the number of
    characters of the stripped plate, and so is the true length written if
    the row is retained. *)
Theorem plate_rows_keep_their_length {F : Type} `{Float64 F}
    (shape_of : string → positive * positive) (p : Params) (df : list sample)
    (out : preprocessed F) (i : nat) (download_dir image_path lp : string) :
  string_split_delimiter p = "|" →
  has_char "|" lp = false →
  preprocess_csv shape_of p df = Ok out →
  retained shape_of p df !! i = Some (plate_row download_dir image_path lp) →
  label_len p (plate_row download_dir image_path lp) = String.length (str_strip lp)
  ∧ out_label_len out !! i = Some (String.length (str_strip lp)).
Proof.
  intros Hsep Hfree Hrun Hi.
  pose proof (units_plate_label lp Hfree) as Hunits.
  destruct (preprocess_csv_row shape_of p df out i _ Hrun Hi)
    as (cl & Hcl & _ & _ & _ & Hlen).
  rewrite Hsep in Hcl. cbn [labels plate_row] in Hcl. rewrite Hunits in Hcl.
  apply Forall2_length in Hcl. rewrite length_list_of_str in Hcl.
  split.
  - unfold label_len, label_string. rewrite Hsep. cbn [labels plate_row].
    rewrite <- (join_units "|" (plate_label lp)) by discriminate.
    rewrite Hunits, join_list_of_str. reflexivity.
  - rewrite Hlen, Hcl. reflexivity.
Qed.

Lemma plate_rows_keep_their_length_witness :
  label_len spec_params (plate_row "/data" "img001.jpg" " AB1 ") = 3%nat
  ∧ out_label_len preprocessed_AB1 !! 0%nat = Some 3%nat.
Proof.
  apply (plate_rows_keep_their_length images_40x32 spec_params
           [plate_row "/data" "img001.jpg" " AB1 "] preprocessed_AB1 0
           "/data" "img001.jpg" " AB1 "); vm_compute; reflexivity.
Defined.

Lemma has_char_replace_char (old new : ascii) (s : string) :
  old ≠ new → has_char old (replace_char old new s) = false.
Proof.
  intros Hne. induction s as [|a s IH]; [reflexivity|].
  cbn [replace_char has_char]. destruct (ascii_dec a old) as [->|Ha].
  - destruct (ascii_dec old new); [congruence | exact IH].
  - destruct (ascii_dec old a); [congruence | exact IH].
Qed.

Lemma length_replace_char (old new : ascii) (s : string) :
  String.length (replace_char old new s) = String.length s.
Proof. induction s as [|a s IH]; simpl; [reflexivity | rewrite IH; reflexivity]. Qed.

Lemma replace_char_id (old new : ascii) (s : string) :
  has_char old s = false → replace_char old new s = s.
Proof.
  induction s as [|a s IH]; [reflexivity|]. cbn [has_char replace_char].
  destruct (ascii_dec old a) as [|Hne]; [discriminate|]. intros Hfree.
  destruct (ascii_dec a old); [congruence|]. rewrite (IH Hfree). reflexivity.
Qed.

(** X20.  The path that [prepare_data] writes holds no backslash, has as
    many characters as the joined path, and is the joined path itself when
    that has no backslash. *)
Theorem plate_src_file_has_no_backslash (download_dir image_path : string) :
  has_char "092" (plate_src_file download_dir image_path) = false
  ∧ String.length (plate_src_file download_dir image_path)
    = String.length (os_path_join download_dir image_path)
  ∧ (has_char "092" (os_path_join download_dir image_path) = false →
     plate_src_file download_dir image_path = os_path_join download_dir image_path).
Proof.
  unfold plate_src_file. split; [apply has_char_replace_char; discriminate|].
  split; [apply length_replace_char | apply replace_char_id].
Qed.


(** * The text of a code row *)

Lemma pretty_N_go_free (c : ascii) (x : N) (s : string) :
  (∀ d : N, pretty_N_char d ≠ c) →
  has_char c s = false → has_char c (pretty_N_go x s) = false.
Proof.
  intros Hdigit. revert s. induction (N.lt_wf_0 x) as [x _ IH]. intros s Hs.
  assert (x = 0 ∨ 0 < x)%N as [->|Hpos] by lia.
  - rewrite pretty_N_go_0. exact Hs.
  - rewrite pretty_N_go_step by exact Hpos. apply IH.
    + apply N.div_lt; [exact Hpos | reflexivity].
    + cbn [has_char]. destruct (ascii_dec c (pretty_N_char (x `mod` 10))) as [Heq|_].
      * exfalso. apply (Hdigit (x `mod` 10)%N). symmetry. exact Heq.
      * exact Hs.
Qed.

Lemma pretty_N_char_not_space (d : N) : pretty_N_char d ≠ " "%char.
Proof. unfold pretty_N_char. repeat case_match; discriminate. Qed.

(** The decimal text of an integer holds no space. *)
Lemma pretty_Z_no_space (z : Z) : has_char " " (pretty z) = false.
Proof.
  assert (Hpos : ∀ p : positive, has_char " " (pretty (N.pos p)) = false).
  { intros p. unfold pretty, pretty_N. destruct (decide (N.pos p = 0%N)); [reflexivity|].
    apply pretty_N_go_free; [apply pretty_N_char_not_space | reflexivity]. }
  destruct z as [|p|p]; [reflexivity | apply Hpos |].
  change (pretty (Z.neg p)) with (String "-" (pretty (N.pos p))).
  cbn [has_char]. destruct (ascii_dec " " "-"); [discriminate | apply Hpos].
Qed.

Lemma map_pretty_inj (row row' : list Z) :
  map (fun c : Z => pretty c) row' = map (fun c : Z => pretty c) row → row' = row.
Proof.
  revert row. induction row' as [|c' row' IH]; intros [|c row] Heq; try discriminate.
  - reflexivity.
  - injection Heq as Hc Hrest. apply (inj pretty) in Hc. subst c'.
    rewrite (IH row Hrest). reflexivity.
Qed.

Lemma split_row_text (row : list Z) :
  row ≠ [] →
  str_split " " (String.concat " " (map (fun c : Z => pretty c) row))
  = Ok (map (fun c : Z => pretty c) row).
Proof.
  intros Hrow. unfold str_split. f_equal. apply split_concat.
  - destruct row; [congruence | discriminate].
  - apply List.Forall_forall. intros text Htext.
    apply List.in_map_iff in Htext as (c & <- & _). apply pretty_Z_no_space.
Qed.

(** X21.  With [max_chars_per_string > 0], the text written for a code row,
    its codes in decimal joined by spaces, splits on the space into the
    decimal texts of exactly these codes, and no other row of codes has the
    same text: the row can be read back from the file. *)
Theorem label_codes_text_parses {F : Type} `{Float64 F}
    (shape_of : string → positive * positive) (p : Params) (df : list sample)
    (out : preprocessed F) :
  (0 < max_chars_per_string p)%Z →
  preprocess_csv shape_of p df = Ok out →
  Forall2 (fun (text : string) (row : list Z) =>
             str_split " " text = Ok (map (fun c : Z => pretty c) row)
             ∧ ∀ row' : list Z,
                 row' ≠ [] →
                 String.concat " " (map (fun c : Z => pretty c) row') = text →
                 row' = row)
          (out_label_codes out) (label_dense_codes out).
Proof.
  intros Hwidth Hrun.
  pose proof (written_rows_shape shape_of p df out Hrun) as Hrows.
  destruct (preprocess_csv_Ok_full shape_of p df out Hrun)
    as (cl & _ & _ & _ & _ & -> & _).
  assert (Hfull : Forall (fun row : list Z => row ≠ []) (label_dense_codes out)).
  { clear - Hrows Hwidth.
    induction Hrows as [|n row ns rows (_ & Hw & _) _ IH]; constructor; [|exact IH].
    intros ->. simpl in Hw. lia. }
  apply Forall2_fmap_l. apply Forall_Forall2_diag.
  eapply Forall_impl; [exact Hfull|]. intros row Hrow. cbv beta.
  split; [apply split_row_text; exact Hrow|].
  intros row' Hrow' Htext. apply map_pretty_inj.
  assert (Hsplit : str_split " " (String.concat " " (map (fun c : Z => pretty c) row'))
                   = str_split " " (String.concat " " (map (fun c : Z => pretty c) row)))
    by (rewrite Htext; reflexivity).
  rewrite !split_row_text in Hsplit by assumption. injection Hsplit as Hsplit. exact Hsplit.
Qed.

Lemma label_codes_text_parses_witness :
  Forall2 (fun (text : string) (row : list Z) =>
             str_split " " text = Ok (map (fun c : Z => pretty c) row)
             ∧ ∀ row' : list Z,
                 row' ≠ [] →
                 String.concat " " (map (fun c : Z => pretty c) row') = text →
                 row' = row)
          ["1 2 3 0 0"] [[1; 2; 3; 0; 0]].
Proof.
  apply (label_codes_text_parses images_40x32 spec_params [sample_AB1] preprocessed_AB1).
  - reflexivity.
  - vm_compute. reflexivity.
Defined.

(** * The input length in integers *)

Lemma Qfloor_comp_eq (x y : Q) : (x == y)%Q → Qfloor x = Qfloor y.
Proof. intros Heq. rewrite Heq. reflexivity. Qed.



(** * A prediction that decodes to nothing *)

Lemma edit_distance_nil_l (truth : list Z) : edit_distance [] truth = length truth.
Proof. reflexivity. Qed.



(** * One batch *)


